(** * LUNA platform support for the Logicbone board

  A shallow embedding of [luna/gateware/platform/core.py] and
  [luna/gateware/platform/logicbone.py], together with the properties of
  the resource tables, the clock domain generator and the toolchain
  hooks.

  Python code with effects is embedded in a small monad [M] that records
  the observable events of a call (log records, child processes, calls
  into the platform) and ends either with a value or with a raised
  exception. *)

From Stdlib Require Import ZArith Ascii String List Lia.
From stdpp Require Import base option list gmap strings pretty.

Local Open Scope string_scope.
Local Open Scope list_scope.

(** ** The Python runtime the two files rely on *)

Module Py.

(** The exception classes that occur in the embedded code. *)
Inductive exn : Type :=
| ResourceError (msg : string)
| AttributeError (msg : string)
| TypeError (msg : string)
| NameError (msg : string)
| OSError (msg : string)
| CalledProcessError (returncode : Z) (cmd : list string).

Inductive loglevel : Type := DEBUG | INFO | WARNING | ERROR | CRITICAL.

(** Observable effects. *)
Inductive event : Type :=
| EvLog (level : loglevel) (msg : string)
| EvRequest (name : string) (number : nat)
| EvExtract (filename : string)
| EvUnlink (path : string)
| EvSubprocess (argv : list string).

Record M (A : Type) : Type := Outcome {
  trace : list event;
  result : exn + A
}.
Arguments Outcome {A} _ _.
Arguments trace {A} _.
Arguments result {A} _.

Definition ret {A} (x : A) : M A := Outcome [] (inr x).
Definition raise {A} (e : exn) : M A := Outcome [] (inl e).
Definition emit (ev : event) : M unit := Outcome [ev] (inr tt).

Definition bind {A B} (m : M A) (f : A → M B) : M B :=
  match result m with
  | inl e => Outcome (trace m) (inl e)
  | inr x => let r := f x in Outcome (trace m ++ trace r) (result r)
  end.

(** [try: body / except <class>: handler]; [handler e] is [None] when the
    [except] clause does not match [e], which then propagates. *)
Definition try_except {A} (body : M A) (handler : exn → option (M A)) : M A :=
  match result body with
  | inr x => body
  | inl e =>
      match handler e with
      | Some h => Outcome (trace body ++ trace h) (result h)
      | None => body
      end
  end.

(** [try: body / finally: cleanup]. *)
Definition try_finally {A} (body : M A) (cleanup : M unit) : M A :=
  match result cleanup with
  | inl e => Outcome (trace body ++ trace cleanup) (inl e)
  | inr _ => Outcome (trace body ++ trace cleanup) (result body)
  end.

Definition returns {A} (m : M A) (x : A) : Prop := result m = inr x.
Definition raises {A} (m : M A) (e : exn) : Prop := result m = inl e.

(** Values passed as keyword arguments. *)
Inductive value : Type :=
| VNone
| VBool (b : bool)
| VInt (n : Z)
| VStr (s : string).

(** [d.update(other)]: the entries of [other] win. *)
Definition dict_update {V} (d other : gmap string V) : gmap string V := other ∪ d.

(** The keyword arguments of a call [f(..., **a, **b)]: a key that occurs
    in both mappings is a [TypeError] raised by the call itself, before
    [f] runs. *)
Definition call_kwargs {V} (a b : gmap string V) : M (gmap string V) :=
  if decide (dom a ∩ dom b = ∅) then ret (a ∪ b)
  else raise (TypeError "got multiple values for keyword argument").

(** [str.isspace] on ASCII characters, and [str.split()] without
    arguments: maximal runs of non-whitespace characters. *)
Definition isspace (c : ascii) : bool :=
  let n := nat_of_ascii c in
  ((9 <=? n) && (n <=? 13) || (28 <=? n) && (n <=? 32))%nat.

Fixpoint split_from (cur : string) (s : string) : list string :=
  match s with
  | EmptyString => if decide (cur = "") then [] else [cur]
  | String c s' =>
      if isspace c
      then (if decide (cur = "") then split_from "" s' else cur :: split_from "" s')
      else split_from (cur +:+ String c "") s'
  end.

Definition split (s : string) : list string := split_from "" s.

(** [enumerate(l, start)] *)
Fixpoint enumerate {A} (start : nat) (l : list A) : list (nat * A) :=
  match l with
  | [] => []
  | x :: l' => (start, x) :: enumerate (S start) l'
  end.

(** [" ".join(l)] *)
Fixpoint join (l : list string) : string :=
  match l with
  | [] => ""
  | [x] => x
  | x :: l' => x +:+ " " +:+ join l'
  end.

(** Objects found in a module namespace. *)
Inductive pyobj : Type :=
| PyModule (name : string)
| PyLogFunction (level : loglevel)
| PyOther (repr : string).

(** [module.attr] *)
Definition getattr (modname : string) (ns : gmap string pyobj) (attr : string) : M pyobj :=
  match ns !! attr with
  | Some o => ret o
  | None =>
      raise (AttributeError
               ("module '" +:+ modname +:+ "' has no attribute '" +:+ attr +:+ "'"))
  end.

(** [o(msg)] for the objects above: the module-level logging functions
    hand the record to the root logger and return [None]; a module is not
    callable. *)
Definition call (o : pyobj) (msg : string) : M unit :=
  match o with
  | PyLogFunction lvl => emit (EvLog lvl msg)
  | PyModule _ => raise (TypeError "'module' object is not callable")
  | PyOther r => raise (TypeError ("'" +:+ r +:+ "' object is not callable"))
  end.

(** The namespace of CPython's [logging] package, as far as the embedded
    code can look into it: the module-level logging functions, and the
    modules that [logging/__init__.py] imports at its top
    ([import sys, os, time, io, re, traceback, warnings, weakref, ...]),
    which thereby are attributes of the package. *)
Definition logging : gmap string pyobj :=
  list_to_map
    [ ("debug", PyLogFunction DEBUG);
      ("info", PyLogFunction INFO);
      ("warning", PyLogFunction WARNING);
      ("warn", PyLogFunction WARNING);
      ("error", PyLogFunction ERROR);
      ("critical", PyLogFunction CRITICAL);
      ("sys", PyModule "sys");
      ("os", PyModule "os");
      ("time", PyModule "time");
      ("io", PyModule "io");
      ("re", PyModule "re");
      ("traceback", PyModule "traceback");
      ("warnings", PyModule "warnings");
      ("weakref", PyModule "weakref") ].

(** The child processes started in a trace, in order. *)
Definition subprocess_calls (t : list event) : list (list string) :=
  omap (λ ev, match ev with EvSubprocess argv => Some argv | _ => None end) t.

(** The log records of a trace, in order. *)
Definition log_records (t : list event) : list (loglevel * string) :=
  omap (λ ev, match ev with EvLog lvl msg => Some (lvl, msg) | _ => None end) t.

End Py.

Global Instance M_ret : MRet Py.M := @Py.ret.
Global Instance M_bind : MBind Py.M := λ A B f m, Py.bind m f.

(** ** [core.py]: the LUNAPlatform mixin *)

Module LUNAPlatform.
Section request_optional.
(** [V] is the type of requested I/O objects (and of [default]); [A] the
    type of the extra arguments handed through to [request]. *)
Context {V A : Type}.

(** [self.request], provided by the nMigen platform the mixin extends. *)
Variable request : string → nat → list A → gmap string A → Py.M V.

(** The namespace [logging] is bound to in [core.py]. *)
Variable logging : gmap string Py.pyobj.

Definition skip_message (name : string) (number : nat) : string :=
  "Skipping resource " +:+ name +:+ "/" +:+ pretty number
    +:+ ", as it is not present on this platform.".

Definition request_optional (name : string) (number : nat) (args : list A)
    (default : V) (expected : bool) (kwargs : gmap string A) : Py.M V :=
  Py.try_except
    (request name number args kwargs)
    (λ e,
       match e with
       | Py.ResourceError _ =>
           Some (log ← (if expected
                        then Py.getattr "logging" logging "warnings"
                        else Py.getattr "logging" logging "debug");
                 Py.call log (skip_message name number);;
                 mret default)
       | _ => None
       end).

End request_optional.
End LUNAPlatform.

(** ** The parts of nMigen that [logicbone.py] builds its tables with

  [nmigen.build.dsl], [nmigen.hdl] and [nmigen_boards.resources] are
  libraries the repository imports.  The definitions below follow their
  constructors as far as the tables and the clock domain generator use
  them; the constructors' checks of argument types are not modelled. *)

Module NMigen.

(** *** [nmigen.build.dsl] *)

Record PinsT : Type := MkPins {
  names : list string;
  dir : string;
  invert : bool
}.

Definition AttrsT : Type := list (string * string).

#[warnings="-register-all"] Inductive constraint : Type :=
| OfPins (p : PinsT)
| DiffPairs (p n : string) (dir : string)
| Subsignal (name : string) (args : list constraint)
| Attrs (a : AttrsT)
| Clock (frequency : Z).

(** [Pins(names, dir=...)] and [PinsN(names, dir=...)]. *)
Definition Pins (names : string) (dir : string) : constraint :=
  OfPins (MkPins (Py.split names) dir false).
Definition PinsN (names : string) (dir : string) : constraint :=
  OfPins (MkPins (Py.split names) dir true).

Record ResourceT : Type := Resource {
  name : string;
  number : nat;
  args : list constraint
}.

(** The two call forms of [Resource.family]: a number alone, or an
    overriding name and a number. *)
Inductive family_args : Type :=
| ByNumber (number : nat)
| ByName (name : string) (number : nat).

Definition family (a : family_args) (ios : list constraint)
    (default_name : string) (name_suffix : string) : ResourceT :=
  let name_suffix :=
    if decide (name_suffix = "") then "" else "_" +:+ name_suffix in
  match a with
  | ByNumber number => Resource (default_name +:+ name_suffix) number ios
  | ByName name number => Resource (name +:+ name_suffix) number ios
  end.

(** Physical pins named by a constraint, in order of occurrence. *)
Fixpoint constraint_pins (c : constraint) : list string :=
  match c with
  | OfPins p => names p
  | DiffPairs p n _ => Py.split p ++ Py.split n
  | Subsignal _ args => flat_map constraint_pins args
  | Attrs _ => []
  | Clock _ => []
  end.

Definition resource_pins (r : ResourceT) : list string :=
  flat_map constraint_pins (args r).

(** The pin assignments of a resource: one entry per [Pins] or
    [DiffPairs] constraint, with the path of subsignal names leading to
    it. *)
Fixpoint constraint_assignments (path : list string) (c : constraint)
    : list (list string * list string) :=
  match c with
  | OfPins p => [(path, names p)]
  | DiffPairs p n _ => [(path, Py.split p ++ Py.split n)]
  | Subsignal s args => flat_map (constraint_assignments (path ++ [s])) args
  | Attrs _ => []
  | Clock _ => []
  end.

Definition resource_assignments (r : ResourceT) : list (list string * list string) :=
  flat_map (constraint_assignments [name r; pretty (number r)]) (args r).

Record ConnectorT : Type := MkConnector {
  conn_name : string;
  conn_number : nat;
  mapping : list (string * string)
}.

(** [Connector(name, number, io)] for a string [io]: the tokens are
    numbered from 1, a token [-] is skipped, and the others are stored
    under the decimal string of their number. *)
Fixpoint connector_mapping (slots : list (nat * string)) : list (string * string) :=
  match slots with
  | [] => []
  | (conn_pin, plat_pin) :: rest =>
      if decide (plat_pin = "-") then connector_mapping rest
      else (pretty conn_pin, plat_pin) :: connector_mapping rest
  end.

Definition Connector (name : string) (number : nat) (io : string) : ConnectorT :=
  MkConnector name number (connector_mapping (Py.enumerate 1 (Py.split io))).

(** [mapping[key]] of an ordered dictionary. *)
Fixpoint assoc {K B} `{EqDecision K} (key : K) (l : list (K * B)) : option B :=
  match l with
  | [] => None
  | (k, v) :: rest => if decide (k = key) then Some v else assoc key rest
  end.

(** The key under which the resource manager files a resource. *)
Definition resource_key (r : ResourceT) : string * nat := (name r, number r).

(** [r] is one of the resources a family function generates under the
    names [base_<suffix>]. *)
Definition variant_of (base : string) (r : ResourceT) : Prop :=
  String.prefix (base +:+ "_") (name r) = true.

(** Two resources have no pin in common. *)
Definition pins_disjoint (r1 r2 : ResourceT) : Prop :=
  Forall (λ p, p ∉ resource_pins r2) (resource_pins r1).

Global Instance variant_of_dec base r : Decision (variant_of base r).
Proof. unfold variant_of. apply _. Defined.

Global Instance pins_disjoint_dec r1 r2 : Decision (pins_disjoint r1 r2).
Proof. unfold pins_disjoint. apply _. Defined.

(** The platform pins a connector gives access to, in slot order. *)
Definition connector_pins (c : ConnectorT) : list string := map snd (mapping c).

End NMigen.

(** *** [nmigen_boards.resources]

    The resource families the Logicbone table is built from.  Keyword
    arguments are record fields; an omitted keyword is [None]. *)

Module NMigenBoards.
Import NMigen.

Definition optional {A B} (o : option A) (f : A → list B) : list B :=
  match o with
  | Some x => f x
  | None => []
  end.

(** Truth value of an optional string: neither [None] nor empty. *)
Definition truthy (o : option string) : option string :=
  match o with
  | Some s => if decide (s = "") then None else Some s
  | None => None
  end.

Record USBArgs : Type := {
  usb_d_p : string;
  usb_d_n : string;
  usb_pullup : option string;
  usb_vbus_valid : option string;
  usb_attrs : option AttrsT
}.

Definition DirectUSBResource (a : family_args) (kw : USBArgs) : ResourceT :=
  let io :=
    [Subsignal "d_p" [Pins (usb_d_p kw) "io"];
     Subsignal "d_n" [Pins (usb_d_n kw) "io"]]
    ++ optional (truthy (usb_pullup kw)) (λ p, [Subsignal "pullup" [Pins p "o"]])
    ++ optional (truthy (usb_vbus_valid kw)) (λ p, [Subsignal "vbus_valid" [Pins p "i"]])
    ++ optional (usb_attrs kw) (λ at_, [Attrs at_]) in
  family a io "usb" "".

(** The [pins] argument of the split families: a string of pin names, a
    list of them, or a dictionary from numbers to pins. *)
Inductive pins_arg : Type :=
| PinsStr (s : string)
| PinsList (l : list string)
| PinsDict (d : list (nat * string)).

Definition _SplitResources (name : option string) (pins : pins_arg)
    (invert : bool) (attrs : option AttrsT) (default_name dir : string)
    : list ResourceT :=
  let pins :=
    match pins with
    | PinsStr s => Py.enumerate 0 (Py.split s)
    | PinsList l => Py.enumerate 0 l
    | PinsDict d => d
    end in
  map (λ '(number, pin),
         let ios :=
           [OfPins (MkPins (Py.split pin) dir invert)]
           ++ optional attrs (λ at_, [Attrs at_]) in
         family (match name with
                 | Some n => ByName n number
                 | None => ByNumber number
                 end) ios default_name "")
      pins.

Definition LEDResources (pins : pins_arg) (attrs : option AttrsT) : list ResourceT :=
  _SplitResources None pins false attrs "led" "o".

Definition SwitchResources (pins : pins_arg) (attrs : option AttrsT) : list ResourceT :=
  _SplitResources None pins false attrs "switch" "i".

Record SPIFlashArgs : Type := {
  flash_cs : string;
  flash_clk : string;
  flash_copi : string;
  flash_cipo : string;
  flash_wp : option string;
  flash_hold : option string;
  flash_attrs : option AttrsT
}.

Definition SPIFlashResources (a : family_args) (kw : SPIFlashArgs) : list ResourceT :=
  let io_all :=
    optional (flash_attrs kw) (λ at_, [Attrs at_])
    ++ [Subsignal "cs" [PinsN (flash_cs kw) "o"];
        Subsignal "clk" [Pins (flash_clk kw) "o"]] in
  let io_1x :=
    io_all
    ++ [Subsignal "copi" [Pins (flash_copi kw) "o"];
        Subsignal "cipo" [Pins (flash_cipo kw) "i"]]
    ++ match flash_wp kw, flash_hold kw with
       | Some wp, Some hold =>
           [Subsignal "wp" [PinsN wp "o"]; Subsignal "hold" [PinsN hold "o"]]
       | _, _ => []
       end in
  let io_2x :=
    io_all
    ++ [Subsignal "dq" [Pins (Py.join [flash_copi kw; flash_cipo kw]) "io"]] in
  [family a io_1x "spi_flash" "1x"; family a io_2x "spi_flash" "2x"]
  ++ match flash_wp kw, flash_hold kw with
     | Some wp, Some hold =>
         let io_4x :=
           io_all
           ++ [Subsignal "dq"
                 [Pins (Py.join [flash_copi kw; flash_cipo kw; wp; hold]) "io"]] in
         [family a io_4x "spi_flash" "4x"]
     | _, _ => []
     end.

Record SDCardArgs : Type := {
  sd_clk : string;
  sd_cmd : string;
  sd_dat0 : string;
  sd_dat1 : option string;
  sd_dat2 : option string;
  sd_dat3 : option string;
  sd_cd : option string;
  sd_wp : option string;
  sd_attrs : option AttrsT
}.

Definition SDCardResources (a : family_args) (kw : SDCardArgs) : list ResourceT :=
  let io_common :=
    optional (sd_attrs kw) (λ at_, [Attrs at_])
    ++ optional (sd_cd kw) (λ cd, [Subsignal "cd" [Pins cd "i"]])
    ++ optional (sd_wp kw) (λ wp, [Subsignal "wp" [PinsN wp "i"]]) in
  let io_native :=
    io_common
    ++ [Subsignal "clk" [Pins (sd_clk kw) "o"];
        Subsignal "cmd" [Pins (sd_cmd kw) "o"]] in
  let io_1bit :=
    io_native
    ++ [Subsignal "dat" [Pins (sd_dat0 kw) "io"]]
    ++ optional (sd_dat3 kw) (λ dat3, [Subsignal "ecd" [Pins dat3 "i"]]) in
  [family a io_1bit "sd_card" "1bit"]
  ++ match sd_dat1 kw, sd_dat2 kw, sd_dat3 kw with
     | Some dat1, Some dat2, Some dat3 =>
         let io_4bit :=
           io_native
           ++ [Subsignal "dat"
                 [Pins (Py.join [sd_dat0 kw; dat1; dat2; dat3]) "io"]] in
         [family a io_4bit "sd_card" "4bit"]
     | _, _, _ => []
     end
  ++ optional (sd_dat3 kw) (λ dat3,
       let io_spi :=
         io_common
         ++ [Subsignal "cs" [PinsN dat3 "io"];
             Subsignal "clk" [Pins (sd_clk kw) "o"];
             Subsignal "copi" [Pins (sd_cmd kw) "o"];
             Subsignal "cipo" [Pins (sd_dat0 kw) "i"]] in
       [family a io_spi "sd_card" "spi"]).

End NMigenBoards.

(** *** [nmigen.hdl]: values, statements, instances and modules *)

Module Hdl.

Inductive Value : Type :=
| Signal (name : string)
| Const (value : Z)
| ClockSignal (domain : string)
| ResetSignal (domain : string)
| Not (v : Value)
| Pin (name : string) (number : nat) (dir : string).

(** [lhs.eq(rhs)] *)
Inductive Statement : Type :=
| Assign (lhs rhs : Value).

Definition eq (lhs rhs : Value) : Statement := Assign lhs rhs.

(** Keyword arguments of [Instance]: strings, integers and values. *)
Inductive arg : Type :=
| AStr (s : string)
| AInt (n : Z)
| AVal (v : Value).

(** [Value.cast] *)
Definition cast (a : arg) : Py.M Value :=
  match a with
  | AVal v => mret v
  | AInt n => mret (Const n)
  | AStr _ => Py.raise (Py.TypeError "Object cannot be converted to an nMigen value")
  end.

Record InstanceT : Type := MkInstance {
  type : string;
  parameters : list (string * arg);
  named_ports : list (string * (Value * string));
  attrs : list (string * arg)
}.

(** [kw[len(prefix):]] when [kw.startswith(prefix)] *)
Fixpoint strip_prefix (prefix kw : string) : option string :=
  match prefix, kw with
  | EmptyString, _ => Some kw
  | String a prefix', String b kw' =>
      if decide (a = b) then strip_prefix prefix' kw' else None
  | String _ _, EmptyString => None
  end.

(** The loop of [Instance.__init__] over its keyword arguments, which
    sorts them by the prefix of their name. *)
Fixpoint instance_kwargs (kwargs : list (string * arg)) (self : InstanceT)
    : Py.M InstanceT :=
  match kwargs with
  | [] => mret self
  | (kw, a) :: rest =>
      self' ←
        match strip_prefix "a_" kw with
        | Some n =>
            mret (MkInstance (type self) (parameters self) (named_ports self)
                    (attrs self ++ [(n, a)]))
        | None =>
        match strip_prefix "p_" kw with
        | Some n =>
            mret (MkInstance (type self) (parameters self ++ [(n, a)])
                    (named_ports self) (attrs self))
        | None =>
        match strip_prefix "i_" kw with
        | Some n =>
            v ← cast a;
            mret (MkInstance (type self) (parameters self)
                    (named_ports self ++ [(n, (v, "i"))]) (attrs self))
        | None =>
        match strip_prefix "o_" kw with
        | Some n =>
            v ← cast a;
            mret (MkInstance (type self) (parameters self)
                    (named_ports self ++ [(n, (v, "o"))]) (attrs self))
        | None =>
        match strip_prefix "io_" kw with
        | Some n =>
            v ← cast a;
            mret (MkInstance (type self) (parameters self)
                    (named_ports self ++ [(n, (v, "io"))]) (attrs self))
        | None =>
            Py.raise (Py.NameError
              ("Instance keyword argument " +:+ kw +:+ " has no known prefix"))
        end end end end end;
      instance_kwargs rest self'
  end.

Definition Instance (type : string) (kwargs : list (string * arg)) : Py.M InstanceT :=
  instance_kwargs kwargs (MkInstance type [] [] []).

(** A module under construction: its clock domains ([m.domains.<name>]),
    its named submodules ([m.submodules.<name>]) and the statements added
    to each [m.d.<domain>]. *)
Record ModuleT : Type := MkModule {
  domains : list string;
  submodules : list (string * InstanceT);
  d : list (string * Statement)
}.

Definition new_Module : ModuleT := MkModule [] [] [].

Definition add_domain (name : string) (m : ModuleT) : ModuleT :=
  MkModule (domains m ++ [name]) (submodules m) (d m).

Definition add_submodule (name : string) (i : InstanceT) (m : ModuleT) : ModuleT :=
  MkModule (domains m) (submodules m ++ [(name, i)]) (d m).

(** [m.d.<domain> += stmts] *)
Definition add_statements (domain : string) (stmts : list Statement) (m : ModuleT)
    : ModuleT :=
  MkModule (domains m) (submodules m) (d m ++ map (λ s, (domain, s)) stmts).

(** Statements of the combinational domain. *)
Definition comb (m : ModuleT) : list Statement :=
  omap (λ '(dom, s), if decide (dom = "comb") then Some s else None) (d m).

(** The port of an instance with a given name. *)
Definition port (i : InstanceT) (name : string) : option (Value * string) :=
  NMigen.assoc name (named_ports i).

Definition parameter (i : InstanceT) (name : string) : option arg :=
  NMigen.assoc name (parameters i).

(** The integer-valued parameters of an instance. *)
Definition int_parameters (i : InstanceT) : list (string * Z) :=
  omap (λ '(n, a), match a with AInt z => Some (n, z) | _ => None end)
    (parameters i).



Global Instance Value_eq_dec : EqDecision Value.
Proof. solve_decision. Defined.

(** The ports of an instance in one direction. *)
Definition ports_of (dir : string) (i : InstanceT) : list (string * Value) :=
  omap (λ '(n, (v, d)), if decide (d = dir) then Some (n, v) else None)
    (named_ports i).

(** The values a module drives: the outputs of its instances and the
    left-hand sides of its assignments. *)
Definition driven (m : ModuleT) : list Value :=
  flat_map (λ '(_, i), map snd (ports_of "o" i)) (submodules m)
  ++ map (λ '(_, s), match s with Assign lhs _ => lhs end) (d m).

(** What [elaborate] needs of the platform it is given. *)
Record PlatformT : Type := MkPlatform {
  default_clk : string;
  request : string → nat → list Py.value → gmap string Py.value → Py.M Value
}.

End Hdl.

(** ** Processes and build products *)

Module subprocess.

(** [subprocess.check_call(argv)], for an operating system [run] that
    either fails to start [argv] or gives the exit status of the child. *)
Definition check_call (run : list string → Py.exn + Z) (argv : list string) : Py.M Z :=
  Py.emit (Py.EvSubprocess argv);;
  match run argv with
  | inl e => Py.raise e
  | inr retcode =>
      if decide (retcode = 0%Z) then mret 0%Z
      else Py.raise (Py.CalledProcessError retcode argv)
  end.

End subprocess.

Module BuildProducts.

(** A set of build products, seen through [extract].  [extract] first
    creates a temporary file and then writes the product into it, so the
    outcome for a file name is one of:
    - [inr path]: the product was written to the temporary file [path];
    - [inl (e, Some path)]: the temporary file [path] was created, but
      reading or writing the product raised [e];
    - [inl (e, None)]: creating the temporary file raised [e]. *)
Definition T : Type := string → (Py.exn * option string) + string.

(** [with products.extract(filename) as path: body]; a temporary file that
    was created is removed by the [finally] clause of [extract], whether
    the block is entered or not and however it is left. *)
Definition with_extract {A} (products : T) (filename : string)
    (body : string → Py.M A) : Py.M A :=
  Py.emit (Py.EvExtract filename);;
  match products filename with
  | inl (e, Some path) => Py.try_finally (Py.raise e) (Py.emit (Py.EvUnlink path))
  | inl (e, None) => Py.raise e
  | inr path => Py.try_finally (body path) (Py.emit (Py.EvUnlink path))
  end.

End BuildProducts.

(** ** [logicbone.py] *)

Module Logicbone.
Import NMigen NMigenBoards.

(** *** LogicboneDomainGenerator *)

(** The generator keeps nothing of its constructor arguments: the body of
    [__init__] is [pass]. *)
Inductive LogicboneDomainGenerator : Type :=
| MkLogicboneDomainGenerator.

Definition __init__ (clock_frequencies : option (list (string * Z)))
    (clock_signal_name : option string) : LogicboneDomainGenerator :=
  MkLogicboneDomainGenerator.

(** [platform.request(platform.default_clk, dir="i")] leaves the number
    of the resource to its default, 0. *)
Definition elaborate (self : LogicboneDomainGenerator) (platform : Hdl.PlatformT)
    : Py.M Hdl.ModuleT :=
  let m := Hdl.new_Module in
  let locked := Hdl.Signal "locked" in
  input_clock ←
    Hdl.request platform (Hdl.default_clk platform) 0 [] {[ "dir" := Py.VStr "i" ]};
  let m := Hdl.add_domain "sync" m in
  let m := Hdl.add_domain "usb" m in
  let m := Hdl.add_domain "usb_io" m in
  let m := Hdl.add_domain "fast" m in
  let feedback := Hdl.Signal "feedback" in
  pll ← Hdl.Instance "EHXPLLL" [
    ("o_LOCK", Hdl.AVal locked);

    ("p_PLLRST_ENA", Hdl.AStr "DISABLED");
    ("p_INTFB_WAKE", Hdl.AStr "DISABLED");
    ("p_STDBY_ENABLE", Hdl.AStr "DISABLED");
    ("p_DPHASE_SOURCE", Hdl.AStr "DISABLED");
    ("p_OUTDIVIDER_MUXA", Hdl.AStr "DIVA");
    ("p_OUTDIVIDER_MUXB", Hdl.AStr "DIVB");
    ("p_OUTDIVIDER_MUXC", Hdl.AStr "DIVC");
    ("p_OUTDIVIDER_MUXD", Hdl.AStr "DIVD");

    ("p_CLKI_DIV", Hdl.AInt 5);
    ("p_CLKOP_ENABLE", Hdl.AStr "ENABLED");
    ("p_CLKOP_DIV", Hdl.AInt 16);
    ("p_CLKOP_CPHASE", Hdl.AInt 9);
    ("p_CLKOP_FPHASE", Hdl.AInt 0);

    ("p_CLKOS_DIV", Hdl.AInt 10);
    ("p_CLKOS_CPHASE", Hdl.AInt 0);
    ("p_CLKOS_FPHASE", Hdl.AInt 0);

    ("p_CLKOS2_ENABLE", Hdl.AStr "ENABLED");
    ("p_CLKOS2_DIV", Hdl.AInt 10);
    ("p_CLKOS2_CPHASE", Hdl.AInt 0);
    ("p_CLKOS2_FPHASE", Hdl.AInt 0);

    ("p_CLKOS3_ENABLE", Hdl.AStr "ENABLED");
    ("p_CLKOS3_DIV", Hdl.AInt 40);
    ("p_CLKOS3_CPHASE", Hdl.AInt 5);
    ("p_CLKOS3_FPHASE", Hdl.AInt 0);

    ("p_FEEDBK_PATH", Hdl.AStr "CLKOP");
    ("p_CLKFB_DIV", Hdl.AInt 6);

    ("i_CLKI", Hdl.AVal input_clock);

    ("i_CLKFB", Hdl.AVal feedback);

    ("i_RST", Hdl.AInt 0);
    ("i_PHASESEL0", Hdl.AInt 0);
    ("i_PHASESEL1", Hdl.AInt 0);
    ("i_PHASEDIR", Hdl.AInt 1);
    ("i_PHASESTEP", Hdl.AInt 1);
    ("i_PHASELOADREG", Hdl.AInt 1);
    ("i_STDBY", Hdl.AInt 0);
    ("i_PLLWAKESYNC", Hdl.AInt 0);

    ("i_ENCLKOP", Hdl.AInt 0);
    ("i_ENCLKOS2", Hdl.AInt 0);

    ("o_CLKOP", Hdl.AVal feedback);
    ("o_CLKOS2", Hdl.AVal (Hdl.ClockSignal "sync"));
    ("o_CLKOS3", Hdl.AVal (Hdl.ClockSignal "usb"));

    ("a_FREQUENCY_PIN_CLKI", Hdl.AStr "25");
    ("a_FREQUENCY_PIN_CLKOP", Hdl.AStr "48");
    ("a_FREQUENCY_PIN_CLKOS", Hdl.AStr "48");
    ("a_FREQUENCY_PIN_CLKOS2", Hdl.AStr "12");
    ("a_ICP_CURRENT", Hdl.AStr "12");
    ("a_LPF_RESISTOR", Hdl.AStr "8");
    ("a_MFG_ENABLE_FILTEROPAMP", Hdl.AStr "1");
    ("a_MFG_GMCREF_SEL", Hdl.AStr "2")
  ];
  let m := Hdl.add_submodule "pll" pll m in
  let m := Hdl.add_statements "comb" [
    Hdl.eq (Hdl.ClockSignal "usb_io") (Hdl.ClockSignal "sync");
    Hdl.eq (Hdl.ClockSignal "fast") (Hdl.ClockSignal "sync");

    Hdl.eq (Hdl.ResetSignal "sync") (Hdl.Not locked);
    Hdl.eq (Hdl.ResetSignal "usb") (Hdl.Not locked);
    Hdl.eq (Hdl.ResetSignal "usb_io") (Hdl.Not locked);
    Hdl.eq (Hdl.ResetSignal "fast") (Hdl.Not locked)
  ] m in
  mret m.

(** *** LogicbonePlatform *)

Definition resources : list ResourceT :=
  [ Resource "rst" 0 [PinsN "C17" "i"; Attrs [("IO_TYPE", "LVCMOS33")]];
    Resource "refclk" 0
      [Pins "M19" "i"; Attrs [("IO_TYPE", "LVCMOS18")]; Clock 25000000];

    DirectUSBResource (ByName "usb" 0)
      {| usb_d_p := "B12"; usb_d_n := "C12"; usb_pullup := Some "C16";
         usb_vbus_valid := None; usb_attrs := None |};
    DirectUSBResource (ByName "usb" 1)
      {| usb_d_p := "R1"; usb_d_n := "T1"; usb_pullup := Some "T2";
         usb_vbus_valid := None; usb_attrs := None |} ]

  ++ LEDResources (PinsStr "D16 C15 C13 B13") (Some [("IO_TYPE", "LVCMOS33")])

  ++ SwitchResources (PinsDict [(0, "U2")]) (Some [("IO_TYPE", "LVCMOS33")])

  ++ SPIFlashResources (ByNumber 0)
       {| flash_cs := "R2"; flash_clk := "U3"; flash_cipo := "V2";
          flash_copi := "W2"; flash_wp := Some "Y2"; flash_hold := Some "W1";
          flash_attrs := Some [("IO_STANDARD", "LVCMOS33")] |}

  ++ SDCardResources (ByNumber 0)
       {| sd_clk := "E11"; sd_cmd := "D15"; sd_cd := Some "D14";
          sd_dat0 := "D13"; sd_dat1 := Some "E13"; sd_dat2 := Some "E15";
          sd_dat3 := Some "E13"; sd_wp := None;
          sd_attrs := Some [("IO_STANDARD", "LVCMOS33")] |}

  ++ [ Resource "eth_clk125" 0
         [Pins "A19" "i"; Clock 125000000; Attrs [("IO_TYPE", "LVCMOS33")]];
       Resource "eth_rgmii" 0 [
         Subsignal "int" [Pins "B20" "i"];
         Subsignal "mdc" [Pins "D12" "o"];
         Subsignal "mdio" [Pins "B19" "io"];
         Subsignal "tx_clk" [Pins "A15" "o"];
         Subsignal "tx_ctl" [Pins "B15" "o"];
         Subsignal "tx_data" [Pins "A12 A13 C14 A14" "o"];
         Subsignal "rx_clk" [Pins "B18" "i"];
         Subsignal "rx_ctl" [Pins "A18" "i"];
         Subsignal "rx_data" [Pins "B17 A17 B16 A16" "i"];
         Attrs [("IO_TYPE", "LVCMOS33")]
       ];

       Resource "ddr3" 0 [
         Subsignal "rst" [PinsN "P1" "o"];
         Subsignal "clk" [DiffPairs "M4" "N5" "o"; Attrs [("IO_TYPE", "LVDS")]];
         Subsignal "clk_en" [Pins "K4" "o"];
         Subsignal "cs" [PinsN "M3" "o"];
         Subsignal "we" [PinsN "E4" "o"];
         Subsignal "ras" [PinsN "L1" "o"];
         Subsignal "cas" [PinsN "M1" "o"];
         Subsignal "a"
           [Pins "D5 F4 B3 F3 E5 C3 C4 A5 A3 B5 G3 F5 D2 A4 D3 E3" "o"];
         Subsignal "ba" [Pins "B4 H5 N2" "o"];
         Subsignal "dqs" [DiffPairs "K2 H4" "J1 G5" "io"; Attrs [("IO_TYPE", "LVDS")]];
         Subsignal "dq"
           [Pins "G2 K1 F1 K3 H2 J3 G1 H1 B1 E1 A2 F2 C1 E2 C2 D1" "io"];
         Subsignal "dm" [Pins "L4 J5" "o"];
         Subsignal "odt" [Pins "C5" "o"];
         Attrs [("IO_TYPE", "SSTL135_I")]
       ] ].

(** The pinout strings of the two connectors. *)
Definition P8 : string := "
        -   -   C20 D19 D20 E19 E20 F19 F20 G20 -   -   -   -   -   -
        -   -   -   -   -   -   G19 H20 J20 K20 C18 D17 D18 E17 E18 F18
        F17 G18 E16 F16 G16 H16 J17 J16 H18 H17 J19 K19 J18 K18
        ".

Definition P9 : string := "
        -   -   -   -   -   -   -   -   -   -   -   A11 B11 A10 C10 A9
        B9  C11 A8  -   -   D9  C8  B8  A7  A6  B6  D8  C7  D7  C6  D6
        -   -   -   -   -   -   -   -   -   B10 E10 -   -   -
        ".

Definition connectors : list ConnectorT :=
  [ Connector "P8" 0 P8; Connector "P9" 0 P9 ].

(** The class attributes of a platform. *)
Record PlatformClass : Type := MkPlatformClass {
  cls_name : string;
  cls_device : string;
  cls_package : string;
  cls_speed : string;
  cls_default_clk : string;
  cls_default_rst : string;
  cls_clock_domain_generator :
    option (list (string * Z)) → option string → LogicboneDomainGenerator;
  cls_default_usb_connection : string;
  cls_resources : list ResourceT;
  cls_connectors : list ConnectorT
}.

Definition LogicbonePlatform : PlatformClass := {|
  cls_name := "Logicbone";
  cls_device := "LFE5UM5G-45F";
  cls_package := "BG381";
  cls_speed := "8";
  cls_default_clk := "refclk";
  cls_default_rst := "rst";
  cls_clock_domain_generator := __init__;
  cls_default_usb_connection := "usb";
  cls_resources := resources;
  cls_connectors := connectors
|}.

(** The subclass overrides [name] and [device] and inherits the rest. *)
Definition Logicbone_85F_Platform : PlatformClass := {|
  cls_name := "Logicbone (85F Variant)";
  cls_device := "LFE5UM5G-85F";
  cls_package := cls_package LogicbonePlatform;
  cls_speed := cls_speed LogicbonePlatform;
  cls_default_clk := cls_default_clk LogicbonePlatform;
  cls_default_rst := cls_default_rst LogicbonePlatform;
  cls_clock_domain_generator := cls_clock_domain_generator LogicbonePlatform;
  cls_default_usb_connection := cls_default_usb_connection LogicbonePlatform;
  cls_resources := cls_resources LogicbonePlatform;
  cls_connectors := cls_connectors LogicbonePlatform
|}.

(** A platform object for the examples of this file.  Its only resource
    is [refclk] 0, which it hands out as an input pin; a request for
    anything else raises [ResourceError].  It stands in for a platform and
    is no model of nMigen's resource manager: the properties of
    [request_optional] and [elaborate] are stated for every platform. *)
Definition example_request (name : string) (number : nat)
    (args : list Py.value) (kwargs : gmap string Py.value) : Py.M Hdl.Value :=
  Py.emit (Py.EvRequest name number);;
  if decide (name = "refclk" ∧ number = 0)
  then mret (Hdl.Pin name number "i")
  else
    Py.raise (Py.ResourceError
      ("Resource " +:+ name +:+ "#" +:+ pretty number +:+ " does not exist")).

Definition example_platform : Hdl.PlatformT :=
  Hdl.MkPlatform "refclk" example_request.

(** The module [elaborate] builds on the example platform. *)
Definition logicbone_module : Hdl.ModuleT :=
  Eval vm_compute in
  match
    Py.result (elaborate (__init__ None None) example_platform)
  with
  | inr m => m
  | inl _ => Hdl.new_Module
  end.

(** *** Toolchain hooks *)

Section toolchain.

Context {Fragment Plan : Type}.

(** [super().toolchain_prepare], from [LatticeECP5Platform]. *)
Variable super_toolchain_prepare :
  Fragment → string → gmap string Py.value → Py.M Plan.

(** [self] is used only to reach the superclass method. *)
Definition toolchain_prepare (fragment : Fragment) (name : string)
    (kwargs : gmap string Py.value) : Py.M Plan :=
  let overrides : gmap string Py.value :=
    {[ "ecppack_opts" := Py.VStr "--compress --spimode qspi --freq 38.8" ]} in
  let overrides := Py.dict_update overrides kwargs in
  kw ← Py.call_kwargs overrides kwargs;
  super_toolchain_prepare fragment name kw.

(** [os.environ], and the operating system that starts child processes. *)
Variable environ : gmap string string.
Variable run : list string → Py.exn + Z.

Definition toolchain_program (products : BuildProducts.T) (name : string)
    : Py.M unit :=
  let dfu_util := default "dfu-util" (environ !! "DFU_UTIL") in
  BuildProducts.with_extract products (name +:+ ".bit") (λ bitstream_filename,
    subprocess.check_call run
      [dfu_util; "-d"; "1d50:615d"; "-a"; "0"; "-R"; "-D"; bitstream_filename];;
    mret tt).

End toolchain.

End Logicbone.

(** * Properties *)

(** ** The effect monad *)

Section monad_lemmas.
Context {A B : Type}.

Lemma bind_unfold (m : Py.M A) (f : A → Py.M B) : m ≫= f = Py.bind m f.
Proof. reflexivity. Qed.

Lemma outcome_eta {T} (m : Py.M T) : Py.Outcome (Py.trace m) (Py.result m) = m.
Proof. by destruct m. Qed.

Lemma bind_ret_l (x : A) (f : A → Py.M B) : mret x ≫= f = f x.
Proof. rewrite bind_unfold. unfold Py.bind. simpl. apply outcome_eta. Qed.

Lemma bind_returns_inv (m : Py.M A) (f : A → Py.M B) (y : B) :
  Py.returns (m ≫= f) y → ∃ x, Py.returns m x ∧ Py.returns (f x) y.
Proof.
  rewrite bind_unfold. unfold Py.returns, Py.bind.
  destruct (Py.result m) as [e|x] eqn:Hm; simpl; [discriminate|].
  intros Hy. by exists x.
Qed.


End monad_lemmas.

(** ** [request_optional] *)

Section request_optional_lemmas.
Context {V A : Type}.
Variable request : string → nat → list A → gmap string A → Py.M V.

(** An exception of [request] other than [ResourceError] is not caught. *)
Lemma request_optional_propagates logging name number args default expected kwargs e :
  Py.raises (request name number args kwargs) e →
  (∀ msg, e ≠ Py.ResourceError msg) →
  LUNAPlatform.request_optional request logging name number args default expected kwargs
  = request name number args kwargs.
Proof.
  unfold Py.raises, LUNAPlatform.request_optional, Py.try_except.
  intros -> Hne. destruct e; try done. by destruct (Hne msg).
Qed.

(** When the resource exists, it is returned and nothing is logged. *)
Lemma request_optional_present logging name number args default expected kwargs v :
  Py.returns (request name number args kwargs) v →
  LUNAPlatform.request_optional request logging name number args default expected kwargs
  = request name number args kwargs.
Proof.
  unfold Py.returns, LUNAPlatform.request_optional, Py.try_except. by intros ->.
Qed.

(** Were [warnings] not an attribute of the [logging] namespace, the
    handler with [expected] set would end in [AttributeError]. *)
Lemma request_optional_expected_without_attribute
    logging name number args default kwargs msg :
  Py.raises (request name number args kwargs) (Py.ResourceError msg) →
  logging !! "warnings" = None →
  Py.raises
    (LUNAPlatform.request_optional request logging name number args default true kwargs)
    (Py.AttributeError "module 'logging' has no attribute 'warnings'").
Proof.
  unfold Py.raises, LUNAPlatform.request_optional, Py.try_except, Py.getattr.
  intros -> ->. reflexivity.
Qed.

(** With [warnings] bound to a module, the handler fails when it calls
    it, before anything is logged. *)
Lemma request_optional_expected_module
    logging name number args default kwargs msg modname :
  Py.raises (request name number args kwargs) (Py.ResourceError msg) →
  logging !! "warnings" = Some (Py.PyModule modname) →
  let r :=
    LUNAPlatform.request_optional request logging name number args default true
      kwargs in
  Py.raises r (Py.TypeError "'module' object is not callable")
  ∧ Py.trace r = Py.trace (request name number args kwargs).
Proof.
  unfold Py.raises, LUNAPlatform.request_optional, Py.try_except, Py.getattr.
  intros -> ->. cbn. split; [reflexivity|]. by rewrite app_nil_r.
Qed.

(** With [debug] bound to the debug-level logging function, the handler
    logs the skip message and returns [default]. *)
Lemma request_optional_unexpected logging name number args default kwargs msg :
  Py.raises (request name number args kwargs) (Py.ResourceError msg) →
  logging !! "debug" = Some (Py.PyLogFunction Py.DEBUG) →
  let r :=
    LUNAPlatform.request_optional request logging name number args default false
      kwargs in
  Py.returns r default
  ∧ Py.trace r
    = Py.trace (request name number args kwargs)
      ++ [Py.EvLog Py.DEBUG (LUNAPlatform.skip_message name number)].
Proof.
  unfold Py.raises, Py.returns, LUNAPlatform.request_optional, Py.try_except,
    Py.getattr.
  intros -> ->. cbn. split; reflexivity.
Qed.

(** CPython's [logging] has both attributes: [warnings] is a module. *)
Lemma logging_warnings_is_module : Py.logging !! "warnings" = Some (Py.PyModule "warnings").
Proof. reflexivity. Qed.

Lemma logging_debug_is_function : Py.logging !! "debug" = Some (Py.PyLogFunction Py.DEBUG).
Proof. reflexivity. Qed.

(** C9 (as amended): when [self.request] raises [ResourceError] and
    [expected] is false, the default, the call logs the skip message at
    debug level and returns exactly [default], without raising. *)
Theorem request_optional_missing_resource
    name number args (default : V) kwargs msg :
  Py.raises (request name number args kwargs) (Py.ResourceError msg) →
  let r :=
    LUNAPlatform.request_optional request Py.logging name number args default
      false kwargs in
  Py.returns r default
  ∧ (∀ e, ¬ Py.raises r e)
  ∧ Py.trace r
    = Py.trace (request name number args kwargs)
      ++ [Py.EvLog Py.DEBUG (LUNAPlatform.skip_message name number)].
Proof.
  intros Hreq r. subst r.
  destruct (request_optional_unexpected Py.logging name number args default
              kwargs msg Hreq logging_debug_is_function) as [Hr Ht].
  split; [exact Hr|]. split; [|exact Ht].
  intros e He. unfold Py.returns in Hr. unfold Py.raises in He. congruence.
Qed.

End request_optional_lemmas.

Lemma request_optional_missing_resource_witness :
  Py.raises (Logicbone.example_request "led" 7 [] ∅)
    (Py.ResourceError "Resource led#7 does not exist")
  ∧ Py.returns
      (LUNAPlatform.request_optional Logicbone.example_request Py.logging
         "led" 7 [] (Hdl.Const 0) false ∅)
      (Hdl.Const 0).
Proof.
  split; [reflexivity|].
  exact (proj1 (request_optional_missing_resource Logicbone.example_request
                  "led" 7 [] (Hdl.Const 0) ∅
                  "Resource led#7 does not exist" eq_refl)).
Defined.

(** C9 as stated fails: on a platform without a resource [led] 7, the call
    with [expected] true does not end in [AttributeError]. *)
Lemma request_optional_expected_no_AttributeError :
  Py.raises (Logicbone.example_request "led" 7 [] ∅)
    (Py.ResourceError "Resource led#7 does not exist")
  ∧ ¬ ∃ msg,
      Py.raises
        (LUNAPlatform.request_optional
           Logicbone.example_request Py.logging
           "led" 7 [] (Hdl.Const 0) true ∅)
        (Py.AttributeError msg).
Proof.
  split; [reflexivity|].
  intros [msg H]. vm_compute in H. discriminate H.
Qed.

(** ** The resource table *)

Section resource_table.
Import NMigen Logicbone.

(** [usb] names two resources, and [led] four. *)
Lemma resource_names_repeat :
  map resource_key (filter (λ r, name r = "usb") resources) = [("usb", 0); ("usb", 1)]
  ∧ map resource_key (filter (λ r, name r = "led") resources)
    = [("led", 0); ("led", 1); ("led", 2); ("led", 3)].
Proof. split; reflexivity. Qed.

(** C4 as stated fails: the names of the resource list are not pairwise
    distinct. *)
Lemma resource_names_not_unique :
  ¬ NoDup (map name (cls_resources LogicbonePlatform)).
Proof.
  intros H. apply (bool_decide_pack _) in H. vm_compute in H. exact H.
Qed.

(** C4 (as amended): within a platform, no two resource entries carry the
    same name and the same number; this holds of the resource list of
    LogicbonePlatform and of the list Logicbone_85F_Platform inherits. *)
Theorem resource_name_number_unique :
  NoDup (map resource_key (cls_resources LogicbonePlatform))
  ∧ NoDup (map resource_key (cls_resources Logicbone_85F_Platform)).
Proof.
  split; apply (bool_decide_unpack _); vm_compute; exact I.
Qed.

End resource_table.

Section pin_assignments.
Import NMigen Logicbone.

(** Resources that share a pin are the variants that one family function
    generates from one set of pins: the three views of the SPI flash, or
    the three views of the SD card. *)
Lemma shared_pins_only_between_variants :
  Forall (λ r1,
    Forall (λ r2,
      resource_key r1 = resource_key r2
      ∨ pins_disjoint r1 r2
      ∨ (variant_of "spi_flash" r1 ∧ variant_of "spi_flash" r2)
      ∨ (variant_of "sd_card" r1 ∧ variant_of "sd_card" r2)) resources) resources.
Proof.
  apply (bool_decide_unpack _). vm_compute. exact I.
Qed.

(** Within every resource but the four-bit SD card, no pin occurs twice. *)
Lemma pins_unique_within_resource :
  Forall (λ r, name r = "sd_card_4bit" ∨ NoDup (resource_pins r)) resources.
Proof.
  apply (bool_decide_unpack _). vm_compute. exact I.
Qed.

(** C10 fails on the table: the call of SDCardResources gives the pin E13
    both to [dat1] and to [dat3], so the data bus of the four-bit SD card
    resource drives bits 1 and 3 from the same pin, and the pins of the
    table are not pairwise distinct. *)
Theorem sd_card_dat1_dat3_share_E13 :
  assoc ["sd_card_4bit"; "0"; "dat"] (flat_map resource_assignments resources)
  = Some ["D13"; "E13"; "E15"; "E13"]
  ∧ ¬ NoDup ["D13"; "E13"; "E15"; "E13"]
  ∧ ¬ NoDup (flat_map resource_pins (cls_resources LogicbonePlatform)).
Proof.
  split; [reflexivity|].
  split; intros H; apply (bool_decide_pack _) in H; vm_compute in H; exact H.
Qed.

End pin_assignments.

(** ** The connector tables *)

Section connector_tables.
Import NMigen Logicbone.

Lemma connector_mapping_lookup (toks : list string) :
  ∀ (start k : nat) (p : string),
    assoc (pretty k) (connector_mapping (Py.enumerate start toks)) = Some p
    ↔ (start ≤ k)%nat ∧ toks !! (k - start)%nat = Some p ∧ p ≠ "-".
Proof.
  induction toks as [|t toks IH]; intros start k p; simpl.
  - split; [discriminate|]. by intros (_ & ? & _).
  - destruct (decide (t = "-")) as [->|Hused].
    + rewrite IH. split.
      * intros (Hle & Hp & Hne). split; [lia|]. split; [|done].
        by replace (k - start) with (S (k - S start)) by lia.
      * intros (Hle & Hp & Hne).
        destruct (decide (k = start)) as [->|Hk].
        { rewrite Nat.sub_diag in Hp. simpl in Hp. congruence. }
        split; [lia|]. split; [|done].
        by replace (k - start) with (S (k - S start)) in Hp by lia.
    + simpl. destruct (decide (pretty start = pretty k)) as [Heq|Hneq].
      * apply (inj pretty) in Heq as ->. rewrite Nat.sub_diag. simpl.
        split.
        { intros [= ->]. by split; [lia|]. }
        { by intros (_ & ? & _). }
      * assert (start ≠ k) by congruence.
        rewrite IH. split.
        { intros (Hle & Hp & Hne). split; [lia|]. split; [|done].
          by replace (k - start) with (S (k - S start)) by lia. }
        { intros (Hle & Hp & Hne). split; [lia|]. split; [|done].
          by replace (k - start) with (S (k - S start)) in Hp by lia. }
Qed.

(** C7: the connectors P8 and P9 are built from their pinout strings, and
    the mapping of a connector built from a string sends slot [k] to the
    [k]-th whitespace-separated token, counted from 1, unless that token
    is [-], which leaves the slot unused; slots 1 and 2 of P8 are unused
    and slot 3 of P8 is pin C20. *)
Theorem connector_tables_positional :
  connectors = [Connector "P8" 0 P8; Connector "P9" 0 P9]
  ∧ (∀ (name io : string) (number k : nat) (p : string),
       assoc (pretty k) (mapping (Connector name number io)) = Some p
       ↔ (1 ≤ k)%nat ∧ Py.split io !! (k - 1)%nat = Some p ∧ p ≠ "-")
  ∧ take 3 (Py.split P8) = ["-"; "-"; "C20"]
  ∧ assoc "1" (mapping (Connector "P8" 0 P8)) = None
  ∧ assoc "2" (mapping (Connector "P8" 0 P8)) = None
  ∧ assoc "3" (mapping (Connector "P8" 0 P8)) = Some "C20"
  ∧ length (Py.split P8) = 46
  ∧ length (Py.split P9) = 46.
Proof.
  split; [reflexivity|]. split.
  { intros name io number k p. unfold Connector. simpl.
    apply connector_mapping_lookup. }
  repeat split; reflexivity.
Qed.

End connector_tables.

(** ** The clock domain generator *)

Section domain_generator.
Import Logicbone.

(** Once the input clock is known, the rest of [elaborate] is a fixed
    construction that cannot fail. *)
Lemma elaborate_returns_inv self platform m :
  Py.returns (elaborate self platform) m →
  ∃ input_clock,
    Py.returns
      (Hdl.request platform (Hdl.default_clk platform) 0 []
         {[ "dir" := Py.VStr "i" ]}) input_clock
    ∧ Hdl.domains m = ["sync"; "usb"; "usb_io"; "fast"]
    ∧ Hdl.comb m
      = [ Hdl.Assign (Hdl.ClockSignal "usb_io") (Hdl.ClockSignal "sync");
          Hdl.Assign (Hdl.ClockSignal "fast") (Hdl.ClockSignal "sync");
          Hdl.Assign (Hdl.ResetSignal "sync") (Hdl.Not (Hdl.Signal "locked"));
          Hdl.Assign (Hdl.ResetSignal "usb") (Hdl.Not (Hdl.Signal "locked"));
          Hdl.Assign (Hdl.ResetSignal "usb_io") (Hdl.Not (Hdl.Signal "locked"));
          Hdl.Assign (Hdl.ResetSignal "fast") (Hdl.Not (Hdl.Signal "locked")) ]
    ∧ Hdl.d m = map (λ s, ("comb", s)) (Hdl.comb m)
    ∧ ∃ pll,
        Hdl.submodules m = [("pll", pll)]
        ∧ Hdl.type pll = "EHXPLLL"
        ∧ Hdl.port pll "LOCK" = Some (Hdl.Signal "locked", "o")
        ∧ Hdl.port pll "CLKI" = Some (input_clock, "i")
        ∧ Hdl.int_parameters pll
          = [ ("CLKI_DIV", 5); ("CLKOP_DIV", 16); ("CLKOP_CPHASE", 9);
              ("CLKOP_FPHASE", 0); ("CLKOS_DIV", 10); ("CLKOS_CPHASE", 0);
              ("CLKOS_FPHASE", 0); ("CLKOS2_DIV", 10); ("CLKOS2_CPHASE", 0);
              ("CLKOS2_FPHASE", 0); ("CLKOS3_DIV", 40); ("CLKOS3_CPHASE", 5);
              ("CLKOS3_FPHASE", 0); ("CLKFB_DIV", 6) ]%Z.
Proof.
  unfold elaborate. cbv zeta. intros H.
  apply bind_returns_inv in H as (input_clock & Hreq & Hrest).
  exists input_clock. split; [exact Hreq|].
  unfold Py.returns in Hrest. vm_compute in Hrest. injection Hrest as <-.
  do 3 (split; [reflexivity|]). eexists.
  do 4 (split; [reflexivity|]). reflexivity.
Qed.



(** C6: the constructor arguments have no influence on [elaborate]; a
    module it returns for one choice of [clock_frequencies] and
    [clock_signal_name] is returned for every other choice, and the
    dividers and phases of its PLL are the constants of the source. *)
Theorem pll_configuration_constant
    clock_frequencies clock_signal_name clock_frequencies' clock_signal_name'
    platform m :
  Py.returns (elaborate (__init__ clock_frequencies clock_signal_name) platform) m →
  elaborate (__init__ clock_frequencies clock_signal_name) platform
  = elaborate (__init__ clock_frequencies' clock_signal_name') platform
  ∧ Py.returns
      (elaborate (__init__ clock_frequencies' clock_signal_name') platform) m
  ∧ ∃ pll,
      Hdl.submodules m = [("pll", pll)]
      ∧ Hdl.int_parameters pll
        = [ ("CLKI_DIV", 5); ("CLKOP_DIV", 16); ("CLKOP_CPHASE", 9);
            ("CLKOP_FPHASE", 0); ("CLKOS_DIV", 10); ("CLKOS_CPHASE", 0);
            ("CLKOS_FPHASE", 0); ("CLKOS2_DIV", 10); ("CLKOS2_CPHASE", 0);
            ("CLKOS2_FPHASE", 0); ("CLKOS3_DIV", 40); ("CLKOS3_CPHASE", 5);
            ("CLKOS3_FPHASE", 0); ("CLKFB_DIV", 6) ]%Z.
Proof.
  intros Hm. split; [reflexivity|]. split; [exact Hm|].
  destruct (elaborate_returns_inv _ platform m Hm)
    as (clk & _ & _ & _ & _ & pll & Hsub & _ & _ & _ & Hpar).
  by exists pll.
Qed.

End domain_generator.


Lemma pll_configuration_constant_witness :
  Py.returns
    (Logicbone.elaborate
       (Logicbone.__init__ (Some [("sync", 60000000%Z)]) (Some "clk_60MHz"))
       Logicbone.example_platform)
    Logicbone.logicbone_module
  ∧ ∃ pll,
      Hdl.submodules Logicbone.logicbone_module = [("pll", pll)]
      ∧ Hdl.int_parameters pll
        = [ ("CLKI_DIV", 5); ("CLKOP_DIV", 16); ("CLKOP_CPHASE", 9);
            ("CLKOP_FPHASE", 0); ("CLKOS_DIV", 10); ("CLKOS_CPHASE", 0);
            ("CLKOS_FPHASE", 0); ("CLKOS2_DIV", 10); ("CLKOS2_CPHASE", 0);
            ("CLKOS2_FPHASE", 0); ("CLKOS3_DIV", 40); ("CLKOS3_CPHASE", 5);
            ("CLKOS3_FPHASE", 0); ("CLKFB_DIV", 6) ]%Z.
Proof.
  assert (Py.returns
            (Logicbone.elaborate (Logicbone.__init__ None None)
               Logicbone.example_platform)
            Logicbone.logicbone_module) as Hm
    by (vm_compute; reflexivity).
  exact (proj2 (pll_configuration_constant None None
                  (Some [("sync", 60000000%Z)]) (Some "clk_60MHz")
                  Logicbone.example_platform
                  Logicbone.logicbone_module Hm)).
Defined.

(** ** The toolchain hooks *)

Section toolchain_hooks.
Import Logicbone.
Context {Fragment Plan : Type}.
Variable super_toolchain_prepare :
  Fragment → string → gmap string Py.value → Py.M Plan.

(** Every key of the extra keyword arguments is also a key of [overrides]
    once these have been updated, and the call that expands both fails. *)
Lemma call_kwargs_overlap (overrides kwargs : gmap string Py.value) :
  kwargs ≠ ∅ →
  Py.call_kwargs (Py.dict_update overrides kwargs) kwargs
  = Py.raise (Py.TypeError "got multiple values for keyword argument").
Proof.
  intros Hne. unfold Py.call_kwargs, Py.dict_update.
  rewrite decide_False; [done|].
  apply map_choose in Hne as (k & v & Hk).
  assert (k ∈ dom kwargs) by (apply elem_of_dom; eauto).
  rewrite dom_union_L. set_solver.
Qed.

Lemma call_kwargs_empty (overrides : gmap string Py.value) :
  Py.call_kwargs overrides ∅ = mret overrides.
Proof.
  unfold Py.call_kwargs. rewrite dom_empty_L.
  rewrite decide_True; [|apply (right_absorb_L ∅ (∩))].
  by rewrite (right_id_L ∅ (∪)).
Qed.

(** C3: without extra keyword arguments, [toolchain_prepare] is the call of
    the superclass method with the same fragment and name and the single
    keyword argument [ecppack_opts], whose outcome it passes on as it is. *)
Theorem toolchain_prepare_default_options (fragment : Fragment) (name : string) :
  toolchain_prepare super_toolchain_prepare fragment name ∅
  = super_toolchain_prepare fragment name
      {[ "ecppack_opts" := Py.VStr "--compress --spimode qspi --freq 38.8" ]}.
Proof.
  unfold toolchain_prepare, Py.dict_update.
  rewrite (left_id_L ∅ (∪)), call_kwargs_empty.
  apply bind_ret_l.
Qed.

(** C8: with any extra keyword argument, [toolchain_prepare] raises
    [TypeError] without calling the superclass method: every key of
    [kwargs] is also in the updated [overrides], so the call expands it
    twice; in particular the call never returns a plan. *)
Theorem toolchain_prepare_extra_kwargs_rejected
    (fragment : Fragment) (name : string) (kwargs : gmap string Py.value) :
  kwargs ≠ ∅ →
  toolchain_prepare super_toolchain_prepare fragment name kwargs
  = Py.raise (Py.TypeError "got multiple values for keyword argument")
  ∧ dom kwargs
    ⊆ dom (Py.dict_update
             ({[ "ecppack_opts" := Py.VStr "--compress --spimode qspi --freq 38.8" ]}
                : gmap string Py.value) kwargs)
      ∩ dom kwargs
  ∧ ∀ plan,
      ¬ Py.returns (toolchain_prepare super_toolchain_prepare fragment name kwargs) plan.
Proof.
  intros Hne.
  assert (toolchain_prepare super_toolchain_prepare fragment name kwargs
          = Py.raise (Py.TypeError "got multiple values for keyword argument")) as Hr.
  { unfold toolchain_prepare. rewrite call_kwargs_overlap by done. reflexivity. }
  split; [exact Hr|]. split.
  - unfold Py.dict_update. rewrite dom_union_L. set_solver.
  - intros plan. rewrite Hr. discriminate.
Qed.

End toolchain_hooks.

Lemma toolchain_prepare_extra_kwargs_rejected_witness :
  ({[ "ecppack_opts" := Py.VStr "--compress" ]} : gmap string Py.value) ≠ ∅
  ∧ Logicbone.toolchain_prepare
      (λ (fragment : unit) (name : string) (kw : gmap string Py.value),
         mret (name, kw))
      tt "top" {[ "ecppack_opts" := Py.VStr "--compress" ]}
    = Py.raise (Py.TypeError "got multiple values for keyword argument").
Proof.
  assert (({[ "ecppack_opts" := Py.VStr "--compress" ]} : gmap string Py.value) ≠ ∅)
    as Hne by apply map_non_empty_singleton.
  split; [exact Hne|].
  exact (proj1 (toolchain_prepare_extra_kwargs_rejected
                  (λ (fragment : unit) (name : string) (kw : gmap string Py.value),
                     mret (name, kw))
                  tt "top" {[ "ecppack_opts" := Py.VStr "--compress" ]} Hne)).
Defined.

Section toolchain_program_lemmas.
Import Logicbone.
Variable environ : gmap string string.
Variable run : list string → Py.exn + Z.

(** The command line of the flashing utility for a bitstream file. *)
Lemma toolchain_program_trace products name path :
  products (name +:+ ".bit") = inr path →
  Py.trace (toolchain_program environ run products name)
  = [ Py.EvExtract (name +:+ ".bit");
      Py.EvSubprocess
        [ default "dfu-util" (environ !! "DFU_UTIL");
          "-d"; "1d50:615d"; "-a"; "0"; "-R"; "-D"; path ];
      Py.EvUnlink path ].
Proof.
  intros Hp. unfold toolchain_program, BuildProducts.with_extract.
  rewrite Hp. unfold subprocess.check_call.
  destruct (run _) as [e|status]; [reflexivity|].
  destruct (decide (status = 0%Z)); reflexivity.
Qed.

Lemma toolchain_program_result products name path :
  products (name +:+ ".bit") = inr path →
  Py.result (toolchain_program environ run products name)
  = match
      run [ default "dfu-util" (environ !! "DFU_UTIL");
            "-d"; "1d50:615d"; "-a"; "0"; "-R"; "-D"; path ]
    with
    | inl e => inl e
    | inr status =>
        if decide (status = 0%Z) then inr tt
        else inl (Py.CalledProcessError status
                    [ default "dfu-util" (environ !! "DFU_UTIL");
                      "-d"; "1d50:615d"; "-a"; "0"; "-R"; "-D"; path ])
    end.
Proof.
  intros Hp. unfold toolchain_program, BuildProducts.with_extract.
  rewrite Hp. unfold subprocess.check_call.
  destruct (run _) as [e|status]; [reflexivity|].
  destruct (decide (status = 0%Z)); reflexivity.
Qed.

(** A product that cannot be extracted ends the call before any process
    is started; a temporary file that was created is removed. *)
Lemma toolchain_program_extract_fails products name e tmp :
  products (name +:+ ".bit") = inl (e, tmp) →
  toolchain_program environ run products name
  = Py.Outcome
      (Py.EvExtract (name +:+ ".bit")
         :: match tmp with Some path => [Py.EvUnlink path] | None => [] end)
      (inl e).
Proof.
  intros Hp. unfold toolchain_program, BuildProducts.with_extract.
  rewrite Hp. by destruct tmp.
Qed.

(** C1: when the bitstream is extracted and the flashing utility runs and
    exits with [status], [toolchain_program] raises [CalledProcessError]
    exactly if [status] is not zero, returns normally exactly if it is
    zero, and raises nothing else. *)
Theorem toolchain_program_exit_status products name path status :
  products (name +:+ ".bit") = inr path →
  run [ default "dfu-util" (environ !! "DFU_UTIL");
        "-d"; "1d50:615d"; "-a"; "0"; "-R"; "-D"; path ] = inr status →
  let r := toolchain_program environ run products name in
  ((∃ returncode cmd, Py.raises r (Py.CalledProcessError returncode cmd))
     ↔ status ≠ 0%Z)
  ∧ (Py.returns r tt ↔ status = 0%Z)
  ∧ (∀ e, Py.raises r e →
       e = Py.CalledProcessError status
             [ default "dfu-util" (environ !! "DFU_UTIL");
               "-d"; "1d50:615d"; "-a"; "0"; "-R"; "-D"; path ]).
Proof.
  intros Hp Hrun r. unfold Py.raises, Py.returns. subst r.
  rewrite (toolchain_program_result _ _ _ Hp), Hrun.
  destruct (decide (status = 0%Z)) as [->|Hne].
  - split; [|split].
    + split; [intros (? & ? & [=])|done].
    + done.
    + intros e [=].
  - split; [|split].
    + split; [done|]. intros _. eauto.
    + split; [intros [=]|done].
    + by intros e [= <-].
Qed.

(** C2: for every design name, [toolchain_program] extracts the product
    [name.bit] and then starts exactly one child process, whose arguments
    are the flashing utility (the value of [DFU_UTIL] in the environment,
    or [dfu-util]), the fixed options, and the path of the extracted
    bitstream. *)
Theorem toolchain_program_single_invocation products name bitstream_filename :
  products (name +:+ ".bit") = inr bitstream_filename →
  let dfu_util :=
    match environ !! "DFU_UTIL" with
    | Some v => v
    | None => "dfu-util"
    end in
  Py.trace (toolchain_program environ run products name)
  = [ Py.EvExtract (name +:+ ".bit");
      Py.EvSubprocess
        [ dfu_util; "-d"; "1d50:615d"; "-a"; "0"; "-R"; "-D"; bitstream_filename ];
      Py.EvUnlink bitstream_filename ].
Proof.
  intros Hp dfu_util. subst dfu_util.
  rewrite (toolchain_program_trace _ _ _ Hp).
  by destruct (environ !! "DFU_UTIL").
Qed.

End toolchain_program_lemmas.

Lemma toolchain_program_exit_status_witness :
  (∃ returncode cmd,
     Py.raises
       (Logicbone.toolchain_program ∅ (λ _, inr 74%Z)
          (λ filename, inr ("/tmp/nmigen_" +:+ filename)) "top")
       (Py.CalledProcessError returncode cmd))
  ↔ 74%Z ≠ 0%Z.
Proof.
  exact (proj1 (toolchain_program_exit_status ∅ (λ _, inr 74%Z)
                  (λ filename, inr ("/tmp/nmigen_" +:+ filename))
                  "top" "/tmp/nmigen_top.bit" 74%Z eq_refl eq_refl)).
Defined.

Lemma toolchain_program_single_invocation_witness :
  Py.trace
    (Logicbone.toolchain_program {[ "DFU_UTIL" := "/opt/bin/dfu-util" ]}
       (λ _, inr 0%Z) (λ filename, inr ("/tmp/nmigen_" +:+ filename)) "top")
  = [ Py.EvExtract "top.bit";
      Py.EvSubprocess
        [ "/opt/bin/dfu-util"; "-d"; "1d50:615d"; "-a"; "0"; "-R"; "-D";
          "/tmp/nmigen_top.bit" ];
      Py.EvUnlink "/tmp/nmigen_top.bit" ].
Proof.
  exact (toolchain_program_single_invocation
           {[ "DFU_UTIL" := "/opt/bin/dfu-util" ]} (λ _, inr 0%Z)
           (λ filename, inr ("/tmp/nmigen_" +:+ filename))
           "top" "/tmp/nmigen_top.bit" eq_refl).
Defined.

(** * Further properties *)

(** ** [request_optional] *)

Section request_optional_passes_on.
Context {V A : Type}.
Variable request : string → nat → list A → gmap string A → Py.M V.

(** X1: when [request] returns the resource, the call is that request:
    the same events and the same value, for every [default], [expected]
    and [logging] namespace; [default] is not used and nothing is
    logged. *)
Theorem request_optional_returns_resource
    logging name number args (default : V) expected kwargs v :
  Py.returns (request name number args kwargs) v →
  let r :=
    LUNAPlatform.request_optional request logging name number args default
      expected kwargs in
  r = request name number args kwargs
  ∧ Py.returns r v
  ∧ Py.log_records (Py.trace r)
    = Py.log_records (Py.trace (request name number args kwargs)).
Proof.
  intros Hv r. subst r.
  rewrite (request_optional_present request logging name number args default
             expected kwargs v Hv).
  by split.
Qed.

(** X2: an exception of [request] other than [ResourceError] is not
    caught: the call ends as [request] did, with the same events and the
    same exception, whatever [default] and [expected] are. *)
Theorem request_optional_other_exception
    logging name number args (default : V) expected kwargs e :
  Py.raises (request name number args kwargs) e →
  (∀ msg, e ≠ Py.ResourceError msg) →
  let r :=
    LUNAPlatform.request_optional request logging name number args default
      expected kwargs in
  r = request name number args kwargs ∧ Py.raises r e.
Proof.
  intros He Hne r. subst r.
  rewrite (request_optional_propagates request logging name number args default
             expected kwargs e He Hne).
  by split.
Qed.

End request_optional_passes_on.

Lemma request_optional_returns_resource_witness :
  LUNAPlatform.request_optional Logicbone.example_request Py.logging
    "refclk" 0 [] (Hdl.Const 0) true ∅
  = Logicbone.example_request "refclk" 0 [] ∅.
Proof.
  assert (Py.returns (Logicbone.example_request "refclk" 0 [] ∅)
            (Hdl.Pin "refclk" 0 "i")) as Hv by (vm_compute; reflexivity).
  exact (proj1 (request_optional_returns_resource
                  Logicbone.example_request Py.logging
                  "refclk" 0 [] (Hdl.Const 0) true ∅ (Hdl.Pin "refclk" 0 "i") Hv)).
Defined.

Lemma request_optional_other_exception_witness :
  LUNAPlatform.request_optional
    (λ (name : string) (number : nat) (_ : list Py.value) (_ : gmap string Py.value),
       Py.raise (Py.TypeError "dir must be one of i, o, io, oe") : Py.M Hdl.Value)
    Py.logging "led" 0 [] (Hdl.Const 0) false ∅
  = Py.raise (Py.TypeError "dir must be one of i, o, io, oe").
Proof.
  assert (∀ msg, Py.TypeError "dir must be one of i, o, io, oe" ≠ Py.ResourceError msg)
    as Hne by (intros msg; discriminate).
  exact (proj1 (request_optional_other_exception
                  (λ (name : string) (number : nat) (_ : list Py.value)
                     (_ : gmap string Py.value),
                     Py.raise (Py.TypeError "dir must be one of i, o, io, oe")
                       : Py.M Hdl.Value)
                  Py.logging "led" 0 [] (Hdl.Const 0) false ∅
                  (Py.TypeError "dir must be one of i, o, io, oe") eq_refl Hne)).
Defined.

Section request_optional_outcomes.
Context {V A : Type}.
Variable request : string → nat → list A → gmap string A → Py.M V.

(** The four ways a call can end, by the outcome of [request]. *)
Lemma request_optional_cases name number args (default : V) expected kwargs :
  let q := request name number args kwargs in
  let r :=
    LUNAPlatform.request_optional request Py.logging name number args default
      expected kwargs in
  (r = q ∧ ∀ msg, ¬ Py.raises q (Py.ResourceError msg))
  ∨ (∃ msg, Py.raises q (Py.ResourceError msg) ∧ expected = false
       ∧ r = Py.Outcome
               (Py.trace q ++ [Py.EvLog Py.DEBUG (LUNAPlatform.skip_message name number)])
               (inr default))
  ∨ (∃ msg, Py.raises q (Py.ResourceError msg) ∧ expected = true
       ∧ r = Py.Outcome (Py.trace q)
               (inl (Py.TypeError "'module' object is not callable"))).
Proof.
  intros q r. subst q r.
  destruct (Py.result (request name number args kwargs)) as [e|v] eqn:Hq.
  - assert ((∃ msg, e = Py.ResourceError msg) ∨ ∀ msg, e ≠ Py.ResourceError msg)
      as [[msg ->]|Hother]
      by (destruct e; first [left; eexists; reflexivity | right; discriminate]).
    + right. destruct expected.
      * right. exists msg. split; [done|]. split; [done|].
        destruct (request_optional_expected_module request Py.logging
                    name number args default kwargs msg "warnings" Hq
                    logging_warnings_is_module) as [Hr Ht].
        rewrite <- Ht, <- Hr. symmetry. apply outcome_eta.
      * left. exists msg. split; [done|]. split; [done|].
        destruct (request_optional_unexpected request Py.logging
                    name number args default kwargs msg Hq
                    logging_debug_is_function) as [Hr Ht].
        rewrite <- Ht, <- Hr. symmetry. apply outcome_eta.
    + left. split.
      * by apply (request_optional_propagates request _ _ _ _ _ _ _ e Hq).
      * intros msg Hm. unfold Py.raises in Hm. rewrite Hq in Hm.
        injection Hm as ->. by apply (Hother msg).
  - left. split.
    + by apply (request_optional_present request _ _ _ _ _ _ _ v).
    + intros msg Hm. unfold Py.raises in Hm. congruence.
Qed.

(** X3: a call logs at most one record beyond what [request] does, and
    that record is the skip message at debug level, written only when
    [request] raised [ResourceError] and [expected] is false; no record of
    warning level is ever added. *)
Theorem request_optional_log_records name number args (default : V) expected kwargs :
  let q := request name number args kwargs in
  let r :=
    LUNAPlatform.request_optional request Py.logging name number args default
      expected kwargs in
  Py.log_records (Py.trace r) = Py.log_records (Py.trace q)
  ∨ (Py.log_records (Py.trace r)
     = Py.log_records (Py.trace q)
       ++ [(Py.DEBUG, LUNAPlatform.skip_message name number)]
     ∧ expected = false
     ∧ ∃ msg, Py.raises q (Py.ResourceError msg)).
Proof.
  intros q r. subst q r.
  pose proof (request_optional_cases name number args default expected kwargs) as H.
  cbv zeta in H.
  destruct H as [[Hr _]|[(msg & Hq & He & Hr)|(msg & Hq & He & Hr)]].
  - left. by rewrite Hr.
  - right. rewrite Hr. simpl. unfold Py.log_records. rewrite omap_app. simpl.
    split; [done|]. split; [done|]. by exists msg.
  - left. by rewrite Hr.
Qed.

(** X4: a value returned by a call is either the value [request]
    returned, or it is [default], and then [request] raised
    [ResourceError] and [expected] is false. *)
Theorem request_optional_returns_inv name number args (default : V) expected kwargs v :
  Py.returns
    (LUNAPlatform.request_optional request Py.logging name number args default
       expected kwargs) v →
  Py.returns (request name number args kwargs) v
  ∨ (v = default ∧ expected = false
     ∧ ∃ msg, Py.raises (request name number args kwargs) (Py.ResourceError msg)).
Proof.
  intros Hv.
  pose proof (request_optional_cases name number args default expected kwargs) as H.
  cbv zeta in H.
  destruct H as [[Hr _]|[(msg & Hq & He & Hr)|(msg & Hq & He & Hr)]];
    rewrite Hr in Hv.
  - by left.
  - right. injection Hv as <-. split; [done|]. split; [done|]. by exists msg.
  - discriminate Hv.
Qed.

(** X5: with [expected] false, an exception that leaves the call is an
    exception [request] raised and is not a [ResourceError]: a missing
    resource never makes such a call fail. *)
Theorem request_optional_raises_inv name number args (default : V) kwargs e :
  Py.raises
    (LUNAPlatform.request_optional request Py.logging name number args default
       false kwargs) e →
  Py.raises (request name number args kwargs) e
  ∧ ∀ msg, e ≠ Py.ResourceError msg.
Proof.
  intros He.
  pose proof (request_optional_cases name number args default false kwargs) as H.
  cbv zeta in H.
  destruct H as [[Hr Hno]|[(msg & Hq & _ & Hr)|(msg & _ & Hfalse & _)]].
  - rewrite Hr in He. split; [exact He|].
    intros msg ->. by apply (Hno msg).
  - rewrite Hr in He. discriminate He.
  - discriminate Hfalse.
Qed.

End request_optional_outcomes.

Lemma request_optional_returns_inv_witness :
  Py.returns (Logicbone.example_request "button" 0 [] ∅) (Hdl.Const 0)
  ∨ (Hdl.Const 0 = Hdl.Const 0 ∧ false = false
     ∧ ∃ msg,
         Py.raises (Logicbone.example_request "button" 0 [] ∅)
           (Py.ResourceError msg)).
Proof.
  assert (Py.returns
            (LUNAPlatform.request_optional Logicbone.example_request Py.logging
               "button" 0 [] (Hdl.Const 0) false ∅) (Hdl.Const 0)) as Hv
    by (vm_compute; reflexivity).
  exact (request_optional_returns_inv Logicbone.example_request
           "button" 0 [] (Hdl.Const 0) false ∅ (Hdl.Const 0) Hv).
Defined.

Lemma request_optional_raises_inv_witness :
  Py.raises
    ((λ (name : string) (number : nat) (_ : list Py.value) (_ : gmap string Py.value),
        Py.raise (Py.TypeError "dir must be one of i, o, io, oe") : Py.M Hdl.Value)
       "led" 0 [] ∅)
    (Py.TypeError "dir must be one of i, o, io, oe")
  ∧ ∀ msg, Py.TypeError "dir must be one of i, o, io, oe" ≠ Py.ResourceError msg.
Proof.
  assert (Py.raises
            (LUNAPlatform.request_optional
               (λ (name : string) (number : nat) (_ : list Py.value)
                  (_ : gmap string Py.value),
                  Py.raise (Py.TypeError "dir must be one of i, o, io, oe")
                    : Py.M Hdl.Value)
               Py.logging "led" 0 [] (Hdl.Const 0) false ∅)
            (Py.TypeError "dir must be one of i, o, io, oe")) as He
    by (vm_compute; reflexivity).
  exact (request_optional_raises_inv
           (λ (name : string) (number : nat) (_ : list Py.value)
              (_ : gmap string Py.value),
              Py.raise (Py.TypeError "dir must be one of i, o, io, oe")
                : Py.M Hdl.Value)
           "led" 0 [] (Hdl.Const 0) ∅
           (Py.TypeError "dir must be one of i, o, io, oe") He).
Defined.

(** ** More on the clock domain generator *)

Section domain_generator_outcomes.
Import Logicbone.

Lemma bind_ext_on_result {A B} (m : Py.M A) (f g : A → Py.M B) :
  (∀ x, Py.returns m x → f x = g x) → m ≫= f = m ≫= g.
Proof.
  intros Hfg. rewrite !bind_unfold. unfold Py.bind.
  destruct (Py.result m) as [e|x] eqn:Hm; [reflexivity|].
  by rewrite (Hfg x).
Qed.

(** After the request, [elaborate] is a pure construction from the input
    clock. *)
Lemma elaborate_outcome self platform :
  ∃ build : Hdl.Value → Hdl.ModuleT,
    elaborate self platform
    = Hdl.request platform (Hdl.default_clk platform) 0 []
        {[ "dir" := Py.VStr "i" ]}
      ≫= λ input_clock, mret (build input_clock).
Proof.
  unfold elaborate. cbv zeta.
  match goal with
  | |- ∃ build, mbind ?f ?req = _ =>
      exists (λ input_clock,
                match Py.result (f input_clock) with
                | inr m => m
                | inl _ => Hdl.new_Module
                end);
      apply (bind_ext_on_result req)
  end.
  intros input_clock _. vm_compute. reflexivity.
Qed.

(** X6: [elaborate] has no effect but its one request to the platform, and
    it fails exactly when that request fails, with the same exception; when
    the request returns, [elaborate] returns a module. *)
Theorem elaborate_fails_iff_request_fails self platform :
  let q :=
    Hdl.request platform (Hdl.default_clk platform) 0 []
      {[ "dir" := Py.VStr "i" ]} in
  Py.trace (elaborate self platform) = Py.trace q
  ∧ (∀ e, Py.raises (elaborate self platform) e ↔ Py.raises q e)
  ∧ ((∃ m, Py.returns (elaborate self platform) m) ↔ ∃ clk, Py.returns q clk).
Proof.
  intros q. subst q.
  destruct (elaborate_outcome self platform) as [build ->].
  rewrite bind_unfold. unfold Py.bind, Py.raises, Py.returns.
  destruct (Py.result (Hdl.request _ _ _ _ _)) as [e|clk]; simpl.
  - split; [done|]. split; [intros e0; split; intros [= ->]; reflexivity|].
    split; intros [? [=]].
  - split; [apply app_nil_r|]. split.
    + intros e. split; intros [=].
    + split; intros _; eauto.
Qed.

End domain_generator_outcomes.

Section domain_generator_wiring.
Import Logicbone.

Lemma elaborate_wiring_inv self platform m :
  Py.returns (elaborate self platform) m →
  ∃ input_clock pll,
    Py.returns
      (Hdl.request platform (Hdl.default_clk platform) 0 []
         {[ "dir" := Py.VStr "i" ]}) input_clock
    ∧ Hdl.submodules m = [("pll", pll)]
    ∧ Hdl.domains m = ["sync"; "usb"; "usb_io"; "fast"]
    ∧ Hdl.ports_of "i" pll
      = [ ("CLKI", input_clock); ("CLKFB", Hdl.Signal "feedback");
          ("RST", Hdl.Const 0); ("PHASESEL0", Hdl.Const 0);
          ("PHASESEL1", Hdl.Const 0); ("PHASEDIR", Hdl.Const 1);
          ("PHASESTEP", Hdl.Const 1); ("PHASELOADREG", Hdl.Const 1);
          ("STDBY", Hdl.Const 0); ("PLLWAKESYNC", Hdl.Const 0);
          ("ENCLKOP", Hdl.Const 0); ("ENCLKOS2", Hdl.Const 0) ]
    ∧ Hdl.ports_of "o" pll
      = [ ("LOCK", Hdl.Signal "locked"); ("CLKOP", Hdl.Signal "feedback");
          ("CLKOS2", Hdl.ClockSignal "sync"); ("CLKOS3", Hdl.ClockSignal "usb") ]
    ∧ Hdl.ports_of "io" pll = []
    ∧ length (Hdl.named_ports pll) = 16
    ∧ Hdl.driven m
      = [ Hdl.Signal "locked"; Hdl.Signal "feedback";
          Hdl.ClockSignal "sync"; Hdl.ClockSignal "usb";
          Hdl.ClockSignal "usb_io"; Hdl.ClockSignal "fast";
          Hdl.ResetSignal "sync"; Hdl.ResetSignal "usb";
          Hdl.ResetSignal "usb_io"; Hdl.ResetSignal "fast" ].
Proof.
  unfold elaborate. cbv zeta. intros H.
  apply bind_returns_inv in H as (input_clock & Hreq & Hrest).
  exists input_clock.
  unfold Py.returns in Hrest. vm_compute in Hrest. injection Hrest as <-.
  eexists. split; [exact Hreq|].
  do 6 (split; [reflexivity|]). reflexivity.
Qed.

(** X7: in a module [elaborate] returns, no value has two drivers, and
    the clock and the reset of every clock domain the module creates are
    driven, by an output of the PLL or by a combinational assignment. *)
Theorem elaborate_single_driver self platform m :
  Py.returns (elaborate self platform) m →
  NoDup (Hdl.driven m)
  ∧ ∀ dom, dom ∈ Hdl.domains m →
      Hdl.ClockSignal dom ∈ Hdl.driven m ∧ Hdl.ResetSignal dom ∈ Hdl.driven m.
Proof.
  intros Hm.
  destruct (elaborate_wiring_inv self platform m Hm)
    as (clk & pll & _ & _ & Hdom & _ & _ & _ & _ & Hdriven).
  rewrite Hdriven, Hdom. split.
  - apply (bool_decide_unpack _). vm_compute. exact I.
  - intros dom Hin.
    repeat (apply elem_of_cons in Hin as [->|Hin]);
      try (split; apply (bool_decide_unpack _); vm_compute; exact I).
    by apply elem_of_nil in Hin.
Qed.

(** X8: the PLL of a returned module takes as [CLKI] the very object the
    platform returned for its default clock; its feedback input [CLKFB] is
    its own output [CLKOP]; [CLKOS2] drives the clock of sync and [CLKOS3]
    that of usb; every other input is tied to a constant. *)
Theorem elaborate_pll_ports self platform input_clock m :
  Py.returns
    (Hdl.request platform (Hdl.default_clk platform) 0 []
       {[ "dir" := Py.VStr "i" ]}) input_clock →
  Py.returns (elaborate self platform) m →
  ∃ pll,
    Hdl.submodules m = [("pll", pll)]
    ∧ Hdl.port pll "CLKI" = Some (input_clock, "i")
    ∧ (∃ feedback,
         Hdl.port pll "CLKFB" = Some (feedback, "i")
         ∧ Hdl.port pll "CLKOP" = Some (feedback, "o"))
    ∧ Hdl.port pll "CLKOS2" = Some (Hdl.ClockSignal "sync", "o")
    ∧ Hdl.port pll "CLKOS3" = Some (Hdl.ClockSignal "usb", "o")
    ∧ ∀ n v, (n, v) ∈ Hdl.ports_of "i" pll →
        n = "CLKI" ∨ n = "CLKFB" ∨ ∃ z, v = Hdl.Const z.
Proof.
  intros Hreq Hm. unfold elaborate in Hm. cbv zeta in Hm.
  apply bind_returns_inv in Hm as (clk & Hclk & Hrest).
  assert (clk = input_clock) as ->
    by (unfold Py.returns in Hreq, Hclk; congruence).
  unfold Py.returns in Hrest. vm_compute in Hrest. injection Hrest as <-.
  eexists. split; [reflexivity|].
  split; [reflexivity|].
  split; [exists (Hdl.Signal "feedback"); split; reflexivity|].
  split; [reflexivity|]. split; [reflexivity|].
  intros n v Hin. vm_compute in Hin.
  repeat (apply elem_of_cons in Hin as [[= -> ->]|Hin]); eauto.
  by apply elem_of_nil in Hin.
Qed.

End domain_generator_wiring.

Lemma elaborate_single_driver_witness :
  NoDup (Hdl.driven Logicbone.logicbone_module)
  ∧ ∀ dom, dom ∈ Hdl.domains Logicbone.logicbone_module →
      Hdl.ClockSignal dom ∈ Hdl.driven Logicbone.logicbone_module
      ∧ Hdl.ResetSignal dom ∈ Hdl.driven Logicbone.logicbone_module.
Proof.
  assert (Py.returns
            (Logicbone.elaborate Logicbone.MkLogicboneDomainGenerator
               Logicbone.example_platform)
            Logicbone.logicbone_module) as Hm
    by (vm_compute; reflexivity).
  exact (elaborate_single_driver Logicbone.MkLogicboneDomainGenerator
           Logicbone.example_platform
           Logicbone.logicbone_module Hm).
Defined.

Lemma elaborate_pll_ports_witness :
  ∃ pll,
    Hdl.submodules Logicbone.logicbone_module = [("pll", pll)]
    ∧ Hdl.port pll "CLKI" = Some (Hdl.Pin "refclk" 0 "i", "i")
    ∧ (∃ feedback,
         Hdl.port pll "CLKFB" = Some (feedback, "i")
         ∧ Hdl.port pll "CLKOP" = Some (feedback, "o"))
    ∧ Hdl.port pll "CLKOS2" = Some (Hdl.ClockSignal "sync", "o")
    ∧ Hdl.port pll "CLKOS3" = Some (Hdl.ClockSignal "usb", "o")
    ∧ ∀ n v, (n, v) ∈ Hdl.ports_of "i" pll →
        n = "CLKI" ∨ n = "CLKFB" ∨ ∃ z, v = Hdl.Const z.
Proof.
  assert (Py.returns
            (Hdl.request Logicbone.example_platform
               (Hdl.default_clk Logicbone.example_platform)
               0 [] {[ "dir" := Py.VStr "i" ]})
            (Hdl.Pin "refclk" 0 "i")) as Hreq
    by (vm_compute; reflexivity).
  assert (Py.returns
            (Logicbone.elaborate Logicbone.MkLogicboneDomainGenerator
               Logicbone.example_platform)
            Logicbone.logicbone_module) as Hm
    by (vm_compute; reflexivity).
  exact (elaborate_pll_ports Logicbone.MkLogicboneDomainGenerator
           Logicbone.example_platform
           (Hdl.Pin "refclk" 0 "i") Logicbone.logicbone_module Hreq Hm).
Defined.

(** ** More on the toolchain hooks *)



Section toolchain_program_outcomes.
Import Logicbone.
Variable run : list string → Py.exn + Z.

(** X10: when the flashing utility cannot be started, the exception of the
    operating system is raised as it is, after the one attempt, and the
    extracted temporary file is still removed. *)
Theorem toolchain_program_spawn_fails environ products name path e :
  products (name +:+ ".bit") = inr path →
  run [ default "dfu-util" (environ !! "DFU_UTIL");
        "-d"; "1d50:615d"; "-a"; "0"; "-R"; "-D"; path ] = inl e →
  toolchain_program environ run products name
  = Py.Outcome
      [ Py.EvExtract (name +:+ ".bit");
        Py.EvSubprocess
          [ default "dfu-util" (environ !! "DFU_UTIL");
            "-d"; "1d50:615d"; "-a"; "0"; "-R"; "-D"; path ];
        Py.EvUnlink path ]
      (inl e).
Proof.
  intros Hp Hrun.
  rewrite <- (outcome_eta (toolchain_program environ run products name)).
  rewrite (toolchain_program_trace _ _ _ _ _ Hp).
  by rewrite (toolchain_program_result _ _ _ _ _ Hp), Hrun.
Qed.

(** X11: whatever the products and the environment, the call starts at
    most one child process, and a process it starts is the flashing
    utility with the fixed options on a file extracted from the product
    [name.bit]. *)
Theorem toolchain_program_processes environ products name :
  let calls := Py.subprocess_calls (Py.trace (toolchain_program environ run products name)) in
  (length calls ≤ 1)%nat
  ∧ ∀ argv, argv ∈ calls →
      ∃ path,
        products (name +:+ ".bit") = inr path
        ∧ argv = [ default "dfu-util" (environ !! "DFU_UTIL");
                   "-d"; "1d50:615d"; "-a"; "0"; "-R"; "-D"; path ].
Proof.
  intros calls. subst calls.
  destruct (products (name +:+ ".bit")) as [[e tmp]|path] eqn:Hp.
  - rewrite (toolchain_program_extract_fails _ _ _ _ _ _ Hp).
    destruct tmp; simpl;
      (split; [lia|]; intros argv Hin; by apply elem_of_nil in Hin).
  - rewrite (toolchain_program_trace _ _ _ _ _ Hp). simpl.
    split; [lia|]. intros argv Hin.
    apply list_elem_of_singleton in Hin as ->. by exists path.
Qed.

(** X12: the call returns exactly when the product is extracted and the
    flashing utility runs and exits with status zero. *)
Theorem toolchain_program_returns_iff environ products name :
  Py.returns (toolchain_program environ run products name) tt
  ↔ ∃ path,
      products (name +:+ ".bit") = inr path
      ∧ run [ default "dfu-util" (environ !! "DFU_UTIL");
              "-d"; "1d50:615d"; "-a"; "0"; "-R"; "-D"; path ] = inr 0%Z.
Proof.
  unfold Py.returns.
  destruct (products (name +:+ ".bit")) as [[e tmp]|path] eqn:Hp.
  - rewrite (toolchain_program_extract_fails _ _ _ _ _ _ Hp). simpl.
    split; [discriminate|]. by intros (path & [=] & _).
  - rewrite (toolchain_program_result _ _ _ _ _ Hp).
    destruct (run _) as [e|status] eqn:Hrun.
    + split; [discriminate|]. intros (path' & [= <-] & Hrun').
      rewrite Hrun in Hrun'. discriminate Hrun'.
    + destruct (decide (status = 0%Z)) as [->|Hne].
      * split; [|done]. intros _. by exists path.
      * split; [discriminate|]. intros (path' & [= <-] & Hrun').
        rewrite Hrun in Hrun'. congruence.
Qed.

End toolchain_program_outcomes.

Lemma toolchain_program_spawn_fails_witness :
  Logicbone.toolchain_program ∅
    (λ _, inl (Py.OSError "No such file or directory: dfu-util"))
    (λ filename, inr ("/tmp/nmigen_" +:+ filename)) "top"
  = Py.Outcome
      [ Py.EvExtract "top.bit";
        Py.EvSubprocess
          [ "dfu-util"; "-d"; "1d50:615d"; "-a"; "0"; "-R"; "-D";
            "/tmp/nmigen_top.bit" ];
        Py.EvUnlink "/tmp/nmigen_top.bit" ]
      (inl (Py.OSError "No such file or directory: dfu-util")).
Proof.
  exact (toolchain_program_spawn_fails
           (λ _, inl (Py.OSError "No such file or directory: dfu-util"))
           ∅ (λ filename, inr ("/tmp/nmigen_" +:+ filename)) "top"
           "/tmp/nmigen_top.bit" (Py.OSError "No such file or directory: dfu-util")
           eq_refl eq_refl).
Defined.

Section toolchain_prepare_outcomes.
Import Logicbone.
Context {Fragment Plan : Type}.
Variable super_toolchain_prepare :
  Fragment → string → gmap string Py.value → Py.M Plan.

(** X14: the packer options cannot be overridden: whenever
    [toolchain_prepare] returns a plan, it was called without extra keyword
    arguments, and the plan is what the superclass method returns for the
    fixed [ecppack_opts] alone. *)
Theorem toolchain_prepare_returns_inv fragment name kwargs plan :
  Py.returns (toolchain_prepare super_toolchain_prepare fragment name kwargs) plan →
  kwargs = ∅
  ∧ Py.returns
      (super_toolchain_prepare fragment name
         {[ "ecppack_opts" := Py.VStr "--compress --spimode qspi --freq 38.8" ]})
      plan.
Proof.
  intros Hplan. destruct (decide (kwargs = ∅)) as [->|Hne].
  - split; [done|]. revert Hplan. unfold toolchain_prepare, Py.dict_update.
    by rewrite (left_id_L ∅ (∪)), call_kwargs_empty, bind_ret_l.
  - exfalso. revert Hplan. unfold toolchain_prepare.
    rewrite call_kwargs_overlap by done. discriminate.
Qed.

End toolchain_prepare_outcomes.

Lemma toolchain_prepare_returns_inv_witness :
  (∅ : gmap string Py.value) = ∅
  ∧ Py.returns
      ((λ (fragment : unit) (name : string) (kw : gmap string Py.value),
          mret (name, kw))
         tt "top"
         {[ "ecppack_opts" := Py.VStr "--compress --spimode qspi --freq 38.8" ]})
      ("top",
       ({[ "ecppack_opts" := Py.VStr "--compress --spimode qspi --freq 38.8" ]}
          : gmap string Py.value)).
Proof.
  assert (Py.returns
            (Logicbone.toolchain_prepare
               (λ (fragment : unit) (name : string) (kw : gmap string Py.value),
                  mret (name, kw))
               tt "top" ∅)
            ("top",
             ({[ "ecppack_opts" := Py.VStr "--compress --spimode qspi --freq 38.8" ]}
                : gmap string Py.value))) as Hplan
    by (vm_compute; reflexivity).
  exact (toolchain_prepare_returns_inv
           (λ (fragment : unit) (name : string) (kw : gmap string Py.value),
              mret (name, kw))
           tt "top" ∅ _ Hplan).
Defined.

(** ** More on the connectors *)

Section connector_shape.
Import NMigen Logicbone.

Lemma connector_mapping_pins (toks : list string) :
  ∀ start : nat,
    map snd (connector_mapping (Py.enumerate start toks))
    = filter (λ p, p ≠ "-") toks.
Proof.
  induction toks as [|t toks IH]; intros start; simpl; [reflexivity|].
  destruct (decide (t = "-")) as [->|Hused].
  - rewrite filter_cons_False by (intros H; by apply H). apply IH.
  - rewrite filter_cons_True by done. simpl. by rewrite IH.
Qed.

Lemma connector_mapping_keys (toks : list string) :
  ∀ (start : nat) (key : string),
    key ∈ map fst (connector_mapping (Py.enumerate start toks)) →
    ∃ k : nat, (start ≤ k)%nat ∧ key = pretty k.
Proof.
  induction toks as [|t toks IH]; intros start key; simpl.
  - intros Hin. by apply elem_of_nil in Hin.
  - destruct (decide (t = "-")) as [->|Hused]; simpl.
    + intros Hin. destruct (IH _ _ Hin) as (k & Hle & ->).
      exists k. split; [lia|done].
    + intros [->|Hin]%elem_of_cons.
      * exists start. split; [lia|done].
      * destruct (IH _ _ Hin) as (k & Hle & ->). exists k. split; [lia|done].
Qed.

Lemma connector_mapping_keys_NoDup (toks : list string) :
  ∀ start : nat, NoDup (map fst (connector_mapping (Py.enumerate start toks))).
Proof.
  induction toks as [|t toks IH]; intros start; simpl; [constructor|].
  destruct (decide (t = "-")) as [->|Hused]; simpl; [apply IH|].
  constructor; [|apply IH].
  intros Hin. apply connector_mapping_keys in Hin as (k & Hle & Heq).
  apply (inj pretty) in Heq. lia.
Qed.

(** X15: for every pinout string, the connector built from it lists, in
    slot order, exactly the tokens that are not [-]; no slot number occurs
    twice among its keys, and no key maps to [-]. *)
Theorem connector_mapping_shape (name io : string) (number : nat) :
  connector_pins (Connector name number io)
  = filter (λ p, p ≠ "-") (Py.split io)
  ∧ NoDup (map fst (mapping (Connector name number io)))
  ∧ ∀ key, assoc key (mapping (Connector name number io)) ≠ Some "-".
Proof.
  unfold connector_pins, Connector. simpl.
  split; [apply connector_mapping_pins|].
  split; [apply connector_mapping_keys_NoDup|].
  intros key Hkey.
  assert ("-" ∈ map snd (connector_mapping (Py.enumerate 1 (Py.split io)))) as Hin.
  { revert Hkey. generalize (connector_mapping (Py.enumerate 1 (Py.split io))).
    intros l. induction l as [|[k v] l IH]; simpl; [discriminate|].
    destruct (decide (k = key)).
    - intros [= ->]. apply list_elem_of_here.
    - intros H. apply list_elem_of_further. by apply IH. }
  rewrite connector_mapping_pins in Hin.
  apply list_elem_of_filter in Hin as [Hne _]. by apply Hne.
Qed.

(** X16: the two connectors of the board give access to 32 and 21 pins;
    no pin is reachable through two connector slots, and no connector pin
    is also wired to a resource of the table. *)
Theorem connector_pins_free :
  map (λ c, length (connector_pins c)) (cls_connectors LogicbonePlatform) = [32; 21]
  ∧ NoDup (flat_map connector_pins (cls_connectors LogicbonePlatform))
  ∧ Forall (λ p, p ∉ flat_map resource_pins (cls_resources LogicbonePlatform))
      (flat_map connector_pins (cls_connectors LogicbonePlatform)).
Proof.
  split; [vm_compute; reflexivity|].
  split; apply (bool_decide_unpack _); vm_compute; exact I.
Qed.

End connector_shape.

(** ** The platform classes *)

Section platform_classes.
Import NMigen Logicbone.

(** X17: in both platform classes, the default clock, the default reset
    and the default USB connection are names of entries of the resource
    table, each with number 0, and the default clock is a resource that
    carries a clock constraint. *)
Theorem platform_defaults_in_table :
  Forall (λ cls,
    (cls_default_clk cls, 0) ∈ map resource_key (cls_resources cls)
    ∧ (cls_default_rst cls, 0) ∈ map resource_key (cls_resources cls)
    ∧ (cls_default_usb_connection cls, 0) ∈ map resource_key (cls_resources cls)
    ∧ ∃ r frequency,
        r ∈ cls_resources cls
        ∧ resource_key r = (cls_default_clk cls, 0)
        ∧ Clock frequency ∈ args r)
    [LogicbonePlatform; Logicbone_85F_Platform].
Proof.
  assert (Resource "refclk" 0
            [Pins "M19" "i"; Attrs [("IO_TYPE", "LVCMOS18")]; Clock 25000000]
          ∈ resources) as Hclk
    by (unfold resources; apply elem_of_app; left;
        apply list_elem_of_further, list_elem_of_here).
  repeat apply Forall_cons_2; [| |apply Forall_nil_2].
  - do 3 (split; [apply (bool_decide_unpack _); vm_compute; exact I|]).
    eexists _, _. split; [exact Hclk|]. split; [reflexivity|].
    do 2 apply list_elem_of_further. apply list_elem_of_here.
  - do 3 (split; [apply (bool_decide_unpack _); vm_compute; exact I|]).
    eexists _, _. split; [exact Hclk|]. split; [reflexivity|].
    do 2 apply list_elem_of_further. apply list_elem_of_here.
Qed.

End platform_classes.
